(** * A shallow embedding of the LanceDB MCP server (src/index.ts)

    The server is glue code: it validates the arguments of three tools
    ([vector_add], [vector_search], [list_tables]) with zod schemas, calls
    the LanceDB connection and the Ollama embeddings endpoint, and turns
    every outcome into a [CallToolResult].

    The two collaborators (the LanceDB connection and [fetch]) are external
    libraries.  They are an interface here ([Collaborators]); the handler is
    written once against that interface, in a state-and-exception monad that
    also records every collaborator call and every [console.error] line.

    Covered: the parsing of the command line, the three zod schemas,
    [generateEmbedding], the handler of [ListToolsRequestSchema] and the
    handler of [CallToolRequestSchema] with its three cases.  [connectDB] and
    [runServer] only hand over to the libraries and are not embedded. *)

From Stdlib Require Import QArith Qround.
From stdpp Require Import base option list strings pretty gmap.

Set Default Proof Using "Type".
Open Scope string_scope.
Open Scope list_scope.

(** ** JavaScript values *)

(** A JS number.  The server never computes with the numbers it is handed
    (vector components, the limit): they are passed through. *)
Definition number : Type := Q.

(** A JSON value as [request.params.arguments] carries it.  An object keeps
    its keys in insertion order. *)
#[warnings="-register-all"]
Inductive json : Type :=
| JNull
| JBool (b : bool)
| JNum (n : number)
| JStr (s : string)
| JArr (l : list json)
| JObj (o : list (string * json)).

(** A plain JS object: the records handed to the store and the rows it
    returns. *)
Definition Obj : Type := list (string * json).

(** [o[k]]: [None] is [undefined]. *)
Fixpoint obj_get (k : string) (o : Obj) : option json :=
  match o with
  | [] => None
  | (k', v) :: rest => if String.eqb k k' then Some v else obj_get k rest
  end.

(** [delete o[k]], on a fresh copy: the other keys keep their order. *)
Fixpoint obj_delete (k : string) (o : Obj) : Obj :=
  match o with
  | [] => []
  | (k', v) :: rest =>
      if String.eqb k k' then obj_delete k rest else (k', v) :: obj_delete k rest
  end.

(** [s] between double quotes, as in a template literal ["${s}"] that
    writes the quotes out. *)
Definition quoted (s : string) : string :=
  let quote := String (Ascii.ascii_of_nat 34) EmptyString in
  quote +:+ s +:+ quote.

(** [hay.includes(needle)] *)
Fixpoint includes (needle hay : string) : bool :=
  String.prefix needle hay ||
  match hay with
  | EmptyString => false
  | String _ rest => includes needle rest
  end.

(** A thrown value.  Everything this program throws or catches is an [Error]
    object: [name] is "Error" for [new Error(m)]. *)
Record JsError : Type := mkJsError { err_name : string; err_message : string }.

Definition new_Error (m : string) : JsError := mkJsError "Error" m.

(** [Error.prototype.toString], which a template literal [`${error}`] calls. *)
Definition Error_toString (e : JsError) : string :=
  if String.eqb (err_name e) "" then err_message e
  else if String.eqb (err_message e) "" then err_name e
  else err_name e +:+ ": " +:+ err_message e.

(** The outcome of an awaited call: thrown ([inl]) or returned ([inr]). *)
Definition Result (A : Type) : Type := JsError + A.

(** ** zod schemas *)

Inductive PathElem : Type := PKey (k : string) | PIndex (i : nat).
Definition Path : Type := list PathElem.

(** The issues of a [ZodError].  zod's own wording of a type mismatch is the
    library's; the message of [custom] is the one given to [refine]. *)
Inductive ZodIssue : Type :=
| invalid_type (path : Path)
| invalid_enum_value (path : Path)
| custom (message : string) (path : Path).

Definition ZodError : Type := list ZodIssue.

Inductive SafeParseReturn (A : Type) : Type :=
| ParseSuccess (data : A)
| ParseFailure (error : ZodError).
Arguments ParseSuccess {A} data.
Arguments ParseFailure {A} error.

Definition parse_success {A} (r : SafeParseReturn A) : bool :=
  match r with ParseSuccess _ => true | ParseFailure _ => false end.

Definition parse_map {A B} (f : A -> B) (r : SafeParseReturn A) : SafeParseReturn B :=
  match r with
  | ParseSuccess a => ParseSuccess (f a)
  | ParseFailure e => ParseFailure e
  end.

(** Two fields of one object: the issues of both are collected. *)
Definition parse_both {A B} (ra : SafeParseReturn A) (rb : SafeParseReturn B)
  : SafeParseReturn (A * B) :=
  match ra, rb with
  | ParseSuccess a, ParseSuccess b => ParseSuccess (a, b)
  | ParseSuccess _, ParseFailure e => ParseFailure e
  | ParseFailure e, ParseSuccess _ => ParseFailure e
  | ParseFailure e1, ParseFailure e2 => ParseFailure (e1 ++ e2)
  end.

(** A schema reads the value found at a key: [None] is [undefined]. *)
Definition Schema_of (A : Type) : Type := Path -> option json -> SafeParseReturn A.

Definition z_string : Schema_of string := fun path v =>
  match v with
  | Some (JStr s) => ParseSuccess s
  | _ => ParseFailure [invalid_type path]
  end.

Definition z_number : Schema_of number := fun path v =>
  match v with
  | Some (JNum n) => ParseSuccess n
  | _ => ParseFailure [invalid_type path]
  end.

Definition z_boolean : Schema_of bool := fun path v =>
  match v with
  | Some (JBool b) => ParseSuccess b
  | _ => ParseFailure [invalid_type path]
  end.

Fixpoint z_array_items {A} (item : Schema_of A) (path : Path) (i : nat) (l : list json)
  : SafeParseReturn (list A) :=
  match l with
  | [] => ParseSuccess []
  | x :: rest =>
      parse_map (fun p => fst p :: snd p)
        (parse_both (item (path ++ [PIndex i]) (Some x))
                    (z_array_items item path (S i) rest))
  end.

Definition z_array {A} (item : Schema_of A) : Schema_of (list A) := fun path v =>
  match v with
  | Some (JArr l) => z_array_items item path 0 l
  | _ => ParseFailure [invalid_type path]
  end.

(** [.optional()]: [undefined] passes, anything else (also [null]) goes to
    the inner schema. *)
Definition z_optional {A} (inner : Schema_of A) : Schema_of (option A) := fun path v =>
  match v with
  | None => ParseSuccess None
  | Some _ => parse_map Some (inner path v)
  end.

Inductive DistanceType : Type := l2 | cosine | dot.

(** [z.enum(['l2', 'cosine', 'dot'])] *)
Definition z_distance_type : Schema_of DistanceType := fun path v =>
  match v with
  | Some (JStr s) =>
      if String.eqb s "l2" then ParseSuccess l2
      else if String.eqb s "cosine" then ParseSuccess cosine
      else if String.eqb s "dot" then ParseSuccess dot
      else ParseFailure [invalid_enum_value path]
  | _ => ParseFailure [invalid_type path]
  end.

(** [z.object({ vector: z.array(z.number()) }).passthrough()]: the parsed
    object has the declared key first and then every other key of the input,
    in the input's order. *)
Definition z_vector_record : Schema_of Obj := fun path v =>
  match v with
  | Some (JObj o) =>
      parse_map
        (fun vec => ("vector", JArr (map JNum vec)) :: obj_delete "vector" o)
        (z_array z_number (path ++ [PKey "vector"]) (obj_get "vector" o))
  | _ => ParseFailure [invalid_type path]
  end.

Record VectorAddArgs : Type := mkVectorAddArgs {
  add_table_name : string;
  add_vectors : list Obj
}.

(** [VectorAddArgsSchema.safeParse(args)]; [args] is [None] when the request
    carries no [arguments]. *)
Definition VectorAddArgsSchema (args : option json) : SafeParseReturn VectorAddArgs :=
  match args with
  | Some (JObj o) =>
      parse_map (fun p => mkVectorAddArgs (fst p) (snd p))
        (parse_both
           (z_string [PKey "table_name"] (obj_get "table_name" o))
           (z_array z_vector_record [PKey "vectors"] (obj_get "vectors" o)))
  | _ => ParseFailure [invalid_type []]
  end.

Record VectorSearchArgs : Type := mkVectorSearchArgs {
  table_name : string;
  query_vector : option (list number);
  query_text : option string;
  limit : option number;
  distance_type : option DistanceType;
  where_ : option string;
  with_vectors : option bool
}.

(** The object schema under [VectorSearchArgsSchema], before [.refine]. *)
Definition VectorSearchArgsObject (args : option json) : SafeParseReturn VectorSearchArgs :=
  match args with
  | Some (JObj o) =>
      parse_map
        (fun p =>
           match p with
           | (tn, (qv, (qt, (lim, (dt, (wh, wv)))))) =>
               mkVectorSearchArgs tn qv qt lim dt wh wv
           end)
        (parse_both (z_string [PKey "table_name"] (obj_get "table_name" o))
        (parse_both (z_optional (z_array z_number) [PKey "query_vector"] (obj_get "query_vector" o))
        (parse_both (z_optional z_string [PKey "query_text"] (obj_get "query_text" o))
        (parse_both (z_optional z_number [PKey "limit"] (obj_get "limit" o))
        (parse_both (z_optional z_distance_type [PKey "distance_type"] (obj_get "distance_type" o))
        (parse_both (z_optional z_string [PKey "where"] (obj_get "where" o))
                    (z_optional z_boolean [PKey "with_vectors"] (obj_get "with_vectors" o))))))))
  | _ => ParseFailure [invalid_type []]
  end.

(** [x !== undefined] *)
Definition defined {A} (x : option A) : bool :=
  match x with Some _ => true | None => false end.

(** The predicate given to [.refine]. *)
Definition search_refinement (data : VectorSearchArgs) : bool :=
  defined (query_vector data) || defined (query_text data).

(** [VectorSearchArgsSchema.safeParse(args)]: the refinement runs on the
    parsed object when the object schema accepts it. *)
Definition VectorSearchArgsSchema (args : option json) : SafeParseReturn VectorSearchArgs :=
  match VectorSearchArgsObject args with
  | ParseSuccess data =>
      if search_refinement data then ParseSuccess data
      else ParseFailure [custom "Either query_vector or query_text must be provided" []]
  | ParseFailure e => ParseFailure e
  end.

(** ** The collaborators *)

(** What the handler reads of an Arrow field: [field.name],
    [field.type.typeId] and [field.type.listSize] ([None] is [undefined],
    for a type that is not a fixed-size list). *)
Record DataType : Type := mkDataType { typeId : Z; listSize : option Z }.
Record Field : Type := mkField { field_name : string; field_type : DataType }.
Record Schema : Type := mkSchema { fields : list Field }.

(** The query that [table.vectorSearch(v)] starts and [distanceType],
    [limit] and [where] refine; nothing reaches the store before
    [toArray]. *)
Record VectorQuery : Type := mkVectorQuery {
  q_vector : list number;
  q_distanceType : option DistanceType;
  q_limit : option number;
  q_where : option string
}.

Definition vectorSearch (v : list number) : VectorQuery := mkVectorQuery v None None None.
Definition q_set_distanceType (d : DistanceType) (q : VectorQuery) : VectorQuery :=
  mkVectorQuery (q_vector q) (Some d) (q_limit q) (q_where q).
Definition q_set_limit (n : number) (q : VectorQuery) : VectorQuery :=
  mkVectorQuery (q_vector q) (q_distanceType q) (Some n) (q_where q).
Definition q_set_where (w : string) (q : VectorQuery) : VectorQuery :=
  mkVectorQuery (q_vector q) (q_distanceType q) (q_limit q) (Some w).

(** The second argument of [fetch]. *)
Record RequestInit : Type := mkRequestInit {
  method : string;
  headers : list (string * string);
  body : string
}.

(** The body of the embeddings endpoint, at the type the source casts it
    to: [{ embedding: number[] }]. *)
Record EmbeddingData : Type := mkEmbeddingData { embedding : list number }.

(** What the handler reads of a [fetch] response; [response.json()] may
    throw. *)
Record Response : Type := mkResponse {
  ok : bool;
  status : N;
  statusText : string;
  response_json : Result EmbeddingData
}.

(** The LanceDB connection [db], the tables it hands out (handles of type
    [TH]) and [fetch], over a world [W] that they read and change.  Each call
    either throws or returns. *)
Class Collaborators (W TH : Type) : Type := {
  openTable : string -> W -> Result TH * W;
  createTable : string -> list Obj -> W -> Result TH * W;
  tableNames : W -> Result (list string) * W;
  table_add : TH -> list Obj -> W -> Result unit * W;
  table_schema : TH -> W -> Result Schema * W;
  query_toArray : TH -> VectorQuery -> W -> Result (list Obj) * W;
  fetch : string -> RequestInit -> W -> Result Response * W
}.

(** The printers of the runtime and of zod: [JSON.stringify(v)],
    [JSON.stringify(v, null, 2)] and the text of a [ZodError] in a template
    literal. *)
Class Printers : Type := {
  JSON_stringify : json -> string;
  JSON_stringify_indent : json -> string;
  ZodError_toString : ZodError -> string
}.

(** One entry per collaborator call, with its outcome, and one per
    [console.error] line, oldest first. *)
Inductive Event (TH : Type) : Type :=
| EvOpenTable (name : string) (r : Result TH)
| EvCreateTable (name : string) (rows : list Obj) (r : Result TH)
| EvTableNames (r : Result (list string))
| EvAdd (t : TH) (rows : list Obj) (r : Result unit)
| EvSchema (t : TH) (r : Result Schema)
| EvToArray (t : TH) (q : VectorQuery) (r : Result (list Obj))
| EvFetch (url : string) (init : RequestInit) (r : Result Response)
| EvLog (line : string).
Arguments EvOpenTable {TH} name r.
Arguments EvCreateTable {TH} name rows r.
Arguments EvTableNames {TH} r.
Arguments EvAdd {TH} t rows r.
Arguments EvSchema {TH} t r.
Arguments EvToArray {TH} t q r.
Arguments EvFetch {TH} url init r.
Arguments EvLog {TH} line.

(** A request to the embeddings endpoint. *)
Definition is_fetch_event {TH} (e : Event TH) : bool :=
  match e with EvFetch _ _ _ => true | _ => false end.

(** The error a collaborator call ended with, if it threw. *)
Definition event_error {TH} (e : Event TH) : option JsError :=
  let thrown {A} (r : Result A) : option JsError :=
    match r with inl err => Some err | inr _ => None end in
  match e with
  | EvOpenTable _ r => thrown r
  | EvCreateTable _ _ r => thrown r
  | EvTableNames r => thrown r
  | EvAdd _ _ r => thrown r
  | EvSchema _ r => thrown r
  | EvToArray _ _ r => thrown r
  | EvFetch _ _ r => thrown r
  | EvLog _ => None
  end.

(** The state a handler runs in. *)
Record State (W TH : Type) : Type := mkState {
  world : W;
  trace : list (Event TH)
}.
Arguments mkState {W TH} world trace.
Arguments world {W TH} s.
Arguments trace {W TH} s.

(** ** The monad of the handlers: state, exceptions, trace *)

Definition M (W TH A : Type) : Type := State W TH -> Result A * State W TH.

Definition ret {W TH A} (a : A) : M W TH A := fun s => (inr a, s).

Definition throw {W TH A} (e : JsError) : M W TH A := fun s => (inl e, s).

Definition bind {W TH A B} (c : M W TH A) (k : A -> M W TH B) : M W TH B :=
  fun s =>
    match c s with
    | (inr a, s') => k a s'
    | (inl e, s') => (inl e, s')
    end.

(** [try { c } catch (error) { h error }] *)
Definition try_catch {W TH A} (c : M W TH A) (h : JsError -> M W TH A) : M W TH A :=
  fun s =>
    match c s with
    | (inr a, s') => (inr a, s')
    | (inl e, s') => h e s'
    end.

(** An awaited collaborator call: the world moves on and the call is
    recorded with its outcome. *)
Definition call {W TH A} (op : W -> Result A * W) (ev : Result A -> Event TH) : M W TH A :=
  fun s =>
    let (r, w') := op (world s) in
    (r, mkState w' (trace s ++ [ev r])).

(** [console.error(line)] *)
Definition console_error {W TH} (line : string) : M W TH unit :=
  fun s => (inr tt, mkState (world s) (trace s ++ [EvLog line])).

(** A value that is either thrown or returned, as [await response.json()]. *)
Definition of_result {W TH A} (r : Result A) : M W TH A := fun s => (r, s).

Declare Scope handler_scope.
Delimit Scope handler_scope with handler.
Notation "'let*' x := c 'in' k" := (bind c (fun x => k))
  (at level 10, x name, c at level 100, k at level 200, only parsing) : handler_scope.
Notation "c >> k" := (bind c (fun _ => k))
  (at level 100, k at level 200, only parsing, right associativity) : handler_scope.
Open Scope handler_scope.

(** ** The request handler *)

(** [request.params] of a [CallToolRequest]. *)
Record Request : Type := mkRequest {
  req_name : string;
  req_arguments : option json
}.

Record ContentItem : Type := mkContentItem { type : string; text : string }.

Record CallToolResult : Type := mkCallToolResult {
  content : list ContentItem;
  isError : bool
}.

(** [{ content: [{ type: "text", text }], isError }] *)
Definition text_result (t : string) (err : bool) : CallToolResult :=
  mkCallToolResult [mkContentItem "text" t] err.

(** The settings read from the command line. *)
Record Config : Type := mkConfig {
  ollamaEndpoint : string;
  ollamaModel : string
}.

(** The defaults of [--ollama-endpoint] and [--ollama-model]. *)
Definition default_config : Config :=
  mkConfig "http://localhost:11434/api/embeddings" "nomic-embed-text:latest".

(** [field.type.typeId === 16 && field.type.listSize > 10] *)
Definition is_vector_field (field : Field) : bool :=
  (typeId (field_type field) =? 16)%Z &&
  match listSize (field_type field) with
  | Some n => (10 <? n)%Z
  | None => false
  end.

(** [`${vectorDimension}`] *)
Definition show_listSize (d : option Z) : string :=
  match d with Some n => pretty n | None => "undefined" end.

(** [searchVector.length !== vectorDimension] *)
Definition dimension_differs (searchVector : list number) (vectorDimension : option Z) : bool :=
  match vectorDimension with
  | Some n => negb (Z.of_nat (length searchVector) =? n)%Z
  | None => true
  end.

(** The line logged when the two dimensions differ. *)
Definition dimension_warning (searchVector : list number) (vectorDimension : option Z)
  : string :=
  "Warning: Query vector dimension (" +:+ pretty (length searchVector)
  +:+ ") doesn't match table vector dimension ("
  +:+ show_listSize vectorDimension +:+ ")".

(** The warning of a dimension mismatch, as an event list: one line or
    none. *)
Definition warning_events {TH} (sv : list number) (vectorField : Field) : list (Event TH) :=
  if dimension_differs sv (listSize (field_type vectorField))
  then [EvLog (dimension_warning sv (listSize (field_type vectorField)))]
  else [].

(** [processedResults], from [with_vectors], the name of the vector column
    and the rows of the store. *)
Definition processResults (with_vectors : bool) (vectorColumnName : string)
    (originalResults : list Obj) : list Obj :=
  if negb with_vectors
  then map (fun item => obj_delete vectorColumnName item) originalResults
  else originalResults.

(** The events a run from [s] to [s'] has added to the trace. *)
Definition new_events {W TH} (s s' : State W TH) : list (Event TH) :=
  drop (length (trace s)) (trace s').

(** A row and what is returned for it: the same row without column [k]. *)
Definition stripped (k : string) (row row' : Obj) : Prop :=
  obj_get k row' = None /\ forall k', k' <> k -> obj_get k' row' = obj_get k' row.

Section Handlers.
Context {W TH : Type} {store : Collaborators W TH} {printers : Printers}.
Variable cfg : Config.

#[local] Abbreviation M := (M W TH).

Definition db_openTable (name : string) : M TH :=
  call (openTable name) (EvOpenTable name).
Definition db_createTable (name : string) (rows : list Obj) : M TH :=
  call (createTable name rows) (EvCreateTable name rows).
Definition db_tableNames : M (list string) :=
  call tableNames EvTableNames.
Definition tbl_add (t : TH) (rows : list Obj) : M unit :=
  call (table_add t rows) (EvAdd t rows).
Definition tbl_schema (t : TH) : M Schema :=
  call (table_schema t) (EvSchema t).
Definition tbl_toArray (t : TH) (q : VectorQuery) : M (list Obj) :=
  call (query_toArray t q) (EvToArray t q).
Definition do_fetch (url : string) (init : RequestInit) : M Response :=
  call (fetch url init) (EvFetch url init).

(** The request [generateEmbedding] posts for [text]. *)
Definition embedding_request (text : string) : RequestInit :=
  mkRequestInit "POST" [("Content-Type", "application/json")]
    (JSON_stringify
       (JObj [("model", JStr (ollamaModel cfg)); ("prompt", JStr text)])).

(** What [generateEmbedding] makes of the response: a status that is not
    [ok] is an error, otherwise the body is read and its [embedding]
    returned. *)
Definition read_embedding (response : Response) : Result (list number) :=
  if negb (ok response) then
    inl (new_Error ("Ollama API error: " +:+ pretty (status response)
                    +:+ " " +:+ statusText response))
  else
    match response_json response with
    | inl error => inl error
    | inr data => inr (embedding data)
    end.

(** The outcome of [fetch] followed by [read_embedding]: a thrown [fetch]
    stays thrown. *)
Definition embedding_of (fetched : Result Response) : Result (list number) :=
  match fetched with
  | inl error => inl error
  | inr response => read_embedding response
  end.

Definition generateEmbedding (text : string) : M (list number) :=
  try_catch
    (let* response := do_fetch (ollamaEndpoint cfg) (embedding_request text) in
     of_result (read_embedding response))
    (fun error =>
       console_error ("Error generating embedding: " +:+ err_message error) >>
       throw error).

(** [case "vector_add"] *)
Definition vector_add (args : option json) : M CallToolResult :=
  match VectorAddArgsSchema args with
  | ParseFailure error =>
      throw (new_Error ("Invalid arguments for vector_add: " +:+ ZodError_toString error))
  | ParseSuccess parsed =>
      let table_name := add_table_name parsed in
      let vectors := add_vectors parsed in
      try_catch
        (let* table := db_openTable table_name in
         tbl_add table vectors >>
         ret (text_result ("Added " +:+ pretty (length vectors)
                           +:+ " vectors to table " +:+ table_name) false))
        (fun error =>
           if includes "does not exist" (err_message error) then
             let* table := db_createTable table_name vectors in
             ret (text_result ("Created table " +:+ table_name +:+ " and added "
                               +:+ pretty (length vectors) +:+ " vectors") false)
           else throw error)
  end.

(** [searchVector]: a [query_vector] (an array, always truthy) wins; a
    [query_text] counts when it is not the empty string. *)
Definition resolve_searchVector (query_vector : option (list number))
    (query_text : option string) : M (list number) :=
  match query_vector with
  | Some v => ret v
  | None =>
      match query_text with
      | Some t =>
          if negb (String.eqb t "") then
            console_error ("Generating embedding for text: " +:+ quoted t) >>
            let* searchVector := generateEmbedding t in
            console_error ("Generated embedding with dimension: "
                           +:+ pretty (length searchVector)) >>
            ret searchVector
          else throw (new_Error "Either query_vector or query_text must be provided")
      | None => throw (new_Error "Either query_vector or query_text must be provided")
      end
  end.

(** The query sent for the parsed arguments: the defaults of [limit] and
    [distance_type] are filled in, an empty [where] is dropped. *)
Definition build_query (searchVector : list number) (parsed : VectorSearchArgs)
  : VectorQuery :=
  let limit := default 10%Q (limit parsed) in
  let distance_type := default cosine (distance_type parsed) in
  let query := q_set_limit limit (q_set_distanceType distance_type (vectorSearch searchVector)) in
  match where_ parsed with
  | Some w => if negb (String.eqb w "") then q_set_where w query else query
  | None => query
  end.

(** The [try] block of [case "vector_search"] from the schema check on,
    once [table] is open and [searchVector] is resolved. *)
Definition search_resolved (table : TH) (searchVector : list number)
    (parsed : VectorSearchArgs) : M CallToolResult :=
  let with_vectors := default false (with_vectors parsed) in
  let* schema := tbl_schema table in
  match List.find is_vector_field (fields schema) with
  | None => throw (new_Error "No vector column found in the table")
  | Some vectorField =>
      let vectorColumnName := field_name vectorField in
      let vectorDimension := listSize (field_type vectorField) in
      (if dimension_differs searchVector vectorDimension then
         console_error (dimension_warning searchVector vectorDimension)
       else ret tt) >>
      let* originalResults := tbl_toArray table (build_query searchVector parsed) in
      let processedResults := processResults with_vectors vectorColumnName originalResults in
      ret (text_result (JSON_stringify_indent (JArr (map JObj processedResults))) false)
  end.

(** The [try] block of [case "vector_search"]. *)
Definition vector_search_body (parsed : VectorSearchArgs) : M CallToolResult :=
  let* table := db_openTable (table_name parsed) in
  let* searchVector := resolve_searchVector (query_vector parsed) (query_text parsed) in
  search_resolved table searchVector parsed.

(** [case "vector_search"] *)
Definition vector_search (args : option json) : M CallToolResult :=
  match VectorSearchArgsSchema args with
  | ParseFailure error =>
      throw (new_Error ("Invalid arguments for vector_search: " +:+ ZodError_toString error))
  | ParseSuccess parsed =>
      try_catch (vector_search_body parsed)
        (fun error =>
           throw (new_Error ("Error searching table " +:+ table_name parsed
                             +:+ ": " +:+ Error_toString error)))
  end.

(** [case "list_tables"] *)
Definition list_tables : M CallToolResult :=
  try_catch
    (let* tables := db_tableNames in
     ret (text_result (JSON_stringify_indent (JArr (map JStr tables))) false))
    (fun error => throw (new_Error ("Error listing tables: " +:+ Error_toString error))).

(** The [switch (name)] of the handler. *)
Definition call_tool (request : Request) : M CallToolResult :=
  let name := req_name request in
  let args := req_arguments request in
  if String.eqb name "vector_add" then vector_add args
  else if String.eqb name "vector_search" then vector_search args
  else if String.eqb name "list_tables" then list_tables
  else throw (new_Error ("Unknown tool: " +:+ name)).

(** The outer [try]/[catch]: what is returned is returned, whatever is
    thrown becomes a result flagged [isError]. *)
Definition respond (out : Result CallToolResult * State W TH)
  : CallToolResult * State W TH :=
  match out with
  | (inr result, s') => (result, s')
  | (inl error, s') => (text_result ("Error: " +:+ err_message error) true, s')
  end.

(** The handler registered for [CallToolRequestSchema]. *)
Definition CallToolRequestHandler (request : Request) (s : State W TH)
  : CallToolResult * State W TH :=
  respond (call_tool request s).

End Handlers.

(** ** An in-memory store and a scripted embeddings endpoint

    One instance of [Collaborators], to run the handler on concrete inputs:
    tables are kept in a map from names to schema and rows; a table is
    created from its first batch of rows, whose columns fix the schema;
    adding appends the rows; listing gives the names; any operation of the
    store can be made to throw.  The theorems on the handler hold for every
    instance of [Collaborators], this one included. *)
Module Mem.

Inductive StoreOp : Type :=
  OpOpen | OpCreate | OpNames | OpAdd | OpSchema | OpToArray.

#[export] Instance StoreOp_eq_dec : EqDecision StoreOp.
Proof. solve_decision. Defined.

Record Table : Type := mkTable { t_schema : Schema; t_rows : list Obj }.

Record World : Type := mkWorld {
  tables : gmap string Table;
  (** the error an operation of the store is made to throw, if any *)
  fault : StoreOp -> option JsError;
  (** the embeddings endpoint: what [fetch] gives for a URL and a request *)
  endpoint : string -> RequestInit -> Result Response
}.

Definition set_tables (ts : gmap string Table) (w : World) : World :=
  mkWorld ts (fault w) (endpoint w).

(** The Arrow type a first row gives a column: a list of numbers is a
    fixed-size list (type id 16) of that length, a string is Utf8 (5), a
    number a Float (3), a boolean a Bool (6). *)
Definition infer_type (v : json) : DataType :=
  match v with
  | JArr l => mkDataType 16 (Some (Z.of_nat (length l)))
  | JStr _ => mkDataType 5 None
  | JNum _ => mkDataType 3 None
  | JBool _ => mkDataType 6 None
  | JNull | JObj _ => mkDataType 1 None
  end.

Definition infer_schema (rows : list Obj) : Schema :=
  match rows with
  | [] => mkSchema []
  | row :: _ => mkSchema (map (fun kv => mkField (fst kv) (infer_type (snd kv))) row)
  end.

Definition with_fault {A} (op : StoreOp) (w : World) (k : Result A * World)
  : Result A * World :=
  match fault w op with
  | Some e => (inl e, w)
  | None => k
  end.

(** The error of the store for a table it does not hold, with the message
    the LanceDB library gives it. *)
Definition not_found {A} (name : string) : Result A :=
  inl (new_Error ("Table '" +:+ name +:+ "' was not found")).

Definition mem_openTable (name : string) (w : World) : Result string * World :=
  with_fault OpOpen w
    match tables w !! name with
    | Some _ => (inr name, w)
    | None => (not_found name, w)
    end.

Definition mem_createTable (name : string) (rows : list Obj) (w : World)
  : Result string * World :=
  with_fault OpCreate w
    match tables w !! name with
    | Some _ => (inl (new_Error ("Table '" +:+ name +:+ "' already exists")), w)
    | None =>
        (inr name, set_tables (<[name := mkTable (infer_schema rows) rows]> (tables w)) w)
    end.

Definition mem_tableNames (w : World) : Result (list string) * World :=
  with_fault OpNames w (inr (map fst (map_to_list (tables w))), w).

Definition mem_add (name : string) (rows : list Obj) (w : World) : Result unit * World :=
  with_fault OpAdd w
    match tables w !! name with
    | Some t =>
        (inr tt, set_tables (<[name := mkTable (t_schema t) (t_rows t ++ rows)]> (tables w)) w)
    | None => (not_found name, w)
    end.

Definition mem_schema (name : string) (w : World) : Result Schema * World :=
  with_fault OpSchema w
    match tables w !! name with
    | Some t => (inr (t_schema t), w)
    | None => (not_found name, w)
    end.

(** No ranking and no filter: the first [limit] rows. *)
Definition mem_toArray (name : string) (q : VectorQuery) (w : World)
  : Result (list Obj) * World :=
  with_fault OpToArray w
    match tables w !! name with
    | Some t =>
        (inr match q_limit q with
             | Some n => take (Z.to_nat (Qfloor n)) (t_rows t)
             | None => t_rows t
             end, w)
    | None => (not_found name, w)
    end.

Definition mem_fetch (url : string) (init : RequestInit) (w : World)
  : Result Response * World :=
  (endpoint w url init, w).

#[export] Instance collaborators : Collaborators World string := {|
  openTable := mem_openTable;
  createTable := mem_createTable;
  tableNames := mem_tableNames;
  table_add := mem_add;
  table_schema := mem_schema;
  query_toArray := mem_toArray;
  fetch := mem_fetch
|}.

(** A compact printer: a number is written as numerator/denominator. *)
Fixpoint show_json (v : json) : string :=
  match v with
  | JNull => "null"
  | JBool true => "true"
  | JBool false => "false"
  | JNum n => pretty (Qnum n) +:+ "/" +:+ pretty (Zpos (Qden n))
  | JStr s => quoted s
  | JArr l => "[" +:+ String.concat "," (map show_json l) +:+ "]"
  | JObj o =>
      "{" +:+ String.concat ","
                (map (fun kv => quoted (fst kv) +:+ ":" +:+ show_json (snd kv)) o)
      +:+ "}"
  end.

Definition show_issue (i : ZodIssue) : string :=
  match i with
  | invalid_type _ => "invalid_type"
  | invalid_enum_value _ => "invalid_enum_value"
  | custom m _ => m
  end.

#[export] Instance printers : Printers := {|
  JSON_stringify := show_json;
  JSON_stringify_indent := show_json;
  ZodError_toString := fun e => String.concat "; " (map show_issue e)
|}.

Definition no_fault : StoreOp -> option JsError := fun _ => None.

(** An endpoint that is down: [fetch] throws. *)
Definition endpoint_down : string -> RequestInit -> Result Response :=
  fun _ _ => inl (mkJsError "FetchError" "connect ECONNREFUSED 127.0.0.1:11434").

(** An endpoint that answers every prompt with [v]. *)
Definition endpoint_const (v : list number) : string -> RequestInit -> Result Response :=
  fun _ _ => inr (mkResponse true 200 "OK" (inr (mkEmbeddingData v))).

(** A freshly created store. *)
Definition empty_world : World := mkWorld ∅ no_fault endpoint_down.

Definition init (w : World) : State World string := mkState w [].

End Mem.

(** ** Concrete requests and stores *)
Module Sample.
Import Mem.

(** [{vector: [0.1, 0.2], title: "a"}] *)
Definition docs_record : Obj :=
  [("vector", JArr [JNum (1 # 10); JNum (2 # 10)]); ("title", JStr "a")].

(** A record whose vector has twelve components. *)
Definition wide_vector : list number := repeat (1 # 2)%Q 12.
Definition wide_record : Obj :=
  [("vector", JArr (map JNum wide_vector)); ("title", JStr "w")].

Definition add_request (table : string) (records : list Obj) : Request :=
  mkRequest "vector_add"
    (Some (JObj [("table_name", JStr table); ("vectors", JArr (map JObj records))])).

(** [add-vectors("docs", [{vector: [0.1, 0.2], title: "a"}])] *)
Definition add_docs : Request := add_request "docs" [docs_record].

(** [vector_add] with an empty [vectors] array. *)
Definition add_nothing : Request := add_request "docs" [].

Definition search_request (fields : Obj) : Request :=
  mkRequest "vector_search" (Some (JObj fields)).

(** [vector_search] with a table name only. *)
Definition search_neither : Request :=
  search_request [("table_name", JStr "docs")].

(** [vector_search] with both [query_vector] and [query_text]. *)
Definition search_both_args : json :=
  JObj [("table_name", JStr "docs");
        ("query_vector", JArr [JNum (1 # 10); JNum (2 # 10)]);
        ("query_text", JStr "hello")].
Definition search_both : Request := mkRequest "vector_search" (Some search_both_args).

(** [vector_search] by vector and by text, on a table [t]. *)
Definition search_by_vector (t : string) (v : list number) : Request :=
  search_request [("table_name", JStr t); ("query_vector", JArr (map JNum v))].
Definition search_by_text (t : string) (q : string) : Request :=
  search_request [("table_name", JStr t); ("query_text", JStr q)].

(** [vector_search] on table "wide" by [wide_vector], with [with_vectors]
    given. *)
Definition search_with_vectors (flag : bool) : Request :=
  search_request [("table_name", JStr "wide");
                  ("query_vector", JArr (map JNum wide_vector));
                  ("with_vectors", JBool flag)].

(** A query vector of three components. *)
Definition three_vector : list number := [1 # 10; 2 # 10; 3 # 10]%Q.

(** [vector_search] on table "wide" with a [query_vector] of twelve
    components and a [query_text]. *)
Definition other_vector : list number := repeat (1 # 4)%Q 12.
Definition search_wide_both : Request :=
  search_request [("table_name", JStr "wide");
                  ("query_vector", JArr (map JNum other_vector));
                  ("query_text", JStr "hello")].

(** A store holding table "docs" (vectors of dimension 2) and table "wide"
    (vectors of dimension 12), one row each. *)
Definition two_tables : gmap string Table :=
  <["docs" := mkTable (infer_schema [docs_record]) [docs_record]]>
    (<["wide" := mkTable (infer_schema [wide_record]) [wide_record]]> ∅).

Definition stocked_world : World := mkWorld two_tables no_fault endpoint_down.

(** The same store, with an embeddings endpoint that answers [wide_vector]. *)
Definition embedding_world : World :=
  mkWorld two_tables no_fault (endpoint_const wide_vector).

Definition disk_full : JsError := new_Error "ENOSPC: no space left on device".

(** [w], where operation [op] of the store throws [e]. *)
Definition failing (op : StoreOp) (e : JsError) (w : World) : World :=
  mkWorld (tables w)
    (fun op' => if decide (op' = op) then Some e else fault w op')
    (endpoint w).

(** The handler over the in-memory store, with the default settings. *)
Definition handle : Request -> State World string -> CallToolResult * State World string :=
  CallToolRequestHandler (store := Mem.collaborators) (printers := Mem.printers)
    default_config.

(** The text of the one content item of a result. *)
Definition text_of (r : CallToolResult) : string :=
  match content r with
  | [item] => text item
  | _ => ""
  end.

(** A record with a short array column before two columns of twelve
    numbers, and a store holding one table of such records. *)
Definition multi_record : Obj :=
  [("tags", JArr [JNum 1%Q; JNum 2%Q; JNum 3%Q]);
   ("vector", JArr (map JNum wide_vector));
   ("thumbnail", JArr (map JNum other_vector));
   ("title", JStr "m")].
Definition multi_world : World :=
  mkWorld (<["multi" := mkTable (infer_schema [multi_record]) [multi_record]]> ∅)
    no_fault endpoint_down.

(** An embeddings endpoint that answers with status 503, and a body that
    would be a valid embedding. *)
Definition endpoint_unavailable : string -> RequestInit -> Result Response :=
  fun _ _ => inr (mkResponse false 503 "Service Unavailable"
                    (inr (mkEmbeddingData wide_vector))).
Definition unavailable_world : World :=
  mkWorld two_tables no_fault endpoint_unavailable.

(** An error whose message contains "does not exist", though no table is
    missing. *)
Definition no_such_column : JsError :=
  new_Error "Invalid input: column 'title' does not exist in the table".

(** A batch whose second item has no [vector]. *)
Definition add_bad_batch_args : Obj :=
  [("table_name", JStr "docs");
   ("vectors", JArr [JObj docs_record; JObj [("title", JStr "b")]])].

(** [vector_search] with every option given. *)
Definition search_with_options : Obj :=
  [("table_name", JStr "wide");
   ("query_vector", JArr (map JNum wide_vector));
   ("limit", JNum 3%Q);
   ("distance_type", JStr "dot");
   ("where", JStr "title = 'w'")].

End Sample.

(** ** What the validators accept *)

(** An item of [vectors] that the record schema accepts: an object whose
    [vector] is an array of numbers. *)
Definition well_formed_record (item : json) : Prop :=
  exists ob nums, item = JObj ob /\ obj_get "vector" ob = Some (JArr (map JNum nums)).

(** A parsed record that has, key by key, the values of the submitted
    object. *)
Definition kept_record (item : json) (record : Obj) : Prop :=
  exists ob, item = JObj ob /\ forall k, obj_get k record = obj_get k ob.

(** The optional keys of [VectorSearchArgsSchema]. *)
Definition optional_search_keys : list string :=
  ["query_vector"; "query_text"; "limit"; "distance_type"; "where"; "with_vectors"].

(** The string of a distance type in the enum. *)
Definition distance_name (d : DistanceType) : string :=
  match d with l2 => "l2" | cosine => "cosine" | dot => "dot" end.

(** ** The tool list *)

(** The three schemas handed to [zodToJsonSchema]. *)
Inductive ArgsSchema : Type :=
| VectorAddArgs_schema
| VectorSearchArgs_schema
| ListTablesArgs_schema.

Record Tool : Type := mkTool {
  tool_name : string;
  tool_description : string;
  tool_inputSchema : json
}.

(** The handler registered for [ListToolsRequestSchema];
    [zodToJsonSchema] is the library's. *)
Definition ListToolsRequestHandler (zodToJsonSchema : ArgsSchema -> json) : list Tool :=
  [ mkTool "vector_add"
      "Add vectors with metadata to a LanceDB table. Creates the table if it doesn't exist."
      (zodToJsonSchema VectorAddArgs_schema);
    mkTool "vector_search"
      "Search for similar vectors in a LanceDB table using either a direct vector or text that will be converted to a vector using Ollama embedding."
      (zodToJsonSchema VectorSearchArgs_schema);
    mkTool "list_tables"
      "List all tables in the LanceDB database."
      (zodToJsonSchema ListTablesArgs_schema) ].

(** A schema converter for concrete runs, left trivial. *)
Definition no_schema : ArgsSchema -> json := fun _ => JNull.

(** A call that writes to the store. *)
Definition is_write_event {TH} (e : Event TH) : bool :=
  match e with
  | EvAdd _ _ _ | EvCreateTable _ _ _ => true
  | _ => false
  end.

(** A call on the store that is made only by a search. *)
Definition is_search_event {TH} (e : Event TH) : bool :=
  match e with
  | EvSchema _ _ | EvToArray _ _ _ => true
  | _ => false
  end.

(** [s] starts with [p]. *)
Definition starts_with (p s : string) : bool := String.prefix p s.

(** ** The command line *)
Module Cli.

(** The four variables the argument loop assigns; [None] is [undefined],
    which [args[++i]] gives when a flag is the last argument. *)
Record Options : Type := mkOptions {
  dbPath : option string;
  endpoint : option string;
  model : option string;
  showHelp : bool
}.

(** The values before the loop. *)
Definition initial : Options :=
  mkOptions None (Some "http://localhost:11434/api/embeddings")
    (Some "nomic-embed-text:latest") false.

Definition set_dbPath (v : option string) (o : Options) : Options :=
  mkOptions v (endpoint o) (model o) (showHelp o).
Definition set_endpoint (v : option string) (o : Options) : Options :=
  mkOptions (dbPath o) v (model o) (showHelp o).
Definition set_model (v : option string) (o : Options) : Options :=
  mkOptions (dbPath o) (endpoint o) v (showHelp o).
Definition set_showHelp (o : Options) : Options :=
  mkOptions (dbPath o) (endpoint o) (model o) true.

(** The [for] loop over [process.argv.slice(2)]: a flag with a value takes
    the next argument, whatever it is, and the loop goes on after it. *)
Fixpoint parse_args (args : list string) (o : Options) : Options :=
  match args with
  | [] => o
  | a :: rest =>
      if String.eqb a "--db-path" then
        match rest with
        | v :: rest' => parse_args rest' (set_dbPath (Some v) o)
        | [] => set_dbPath None o
        end
      else if String.eqb a "--ollama-endpoint" then
        match rest with
        | v :: rest' => parse_args rest' (set_endpoint (Some v) o)
        | [] => set_endpoint None o
        end
      else if String.eqb a "--ollama-model" then
        match rest with
        | v :: rest' => parse_args rest' (set_model (Some v) o)
        | [] => set_model None o
        end
      else if String.eqb a "--help" || String.eqb a "-h" then
        parse_args rest (set_showHelp o)
      else parse_args rest o
  end.

Definition usage : string :=
  "Usage: mcp-server-lancedb --db-path <path> [--ollama-endpoint <url>] [--ollama-model <model>]".

(** What [--help] prints. *)
Definition help_lines : list string :=
  [ usage;
    "";
    "Options:";
    "  --db-path <path>           Path to the LanceDB database (required)";
    "  --ollama-endpoint <url>    URL of the Ollama API embeddings endpoint (default: http://localhost:11434/api/embeddings)";
    "  --ollama-model <model>     Ollama model to use for embeddings (default: nomic-embed-text:latest)";
    "  --help, -h                 Show this help message" ].

(** What a missing database path prints. *)
Definition missing_lines : list string :=
  [ "Error: Missing required arguments"; usage ].

(** The script up to the definition of the server: [process.exit(code)]
    after the lines printed with [console.error], or on with the options. *)
Inductive Startup : Type :=
| Exit (code : Z) (printed : list string)
| Continue (o : Options).

(** [!dbPath]: [undefined] and the empty string are falsy. *)
Definition no_dbPath (o : Options) : bool :=
  match dbPath o with
  | Some p => String.eqb p ""
  | None => true
  end.

Definition startup (args : list string) : Startup :=
  let o := parse_args args initial in
  if showHelp o then Exit 0 help_lines
  else if no_dbPath o then Exit 1 missing_lines
  else Continue o.

(** The flags that take a value, and the two that ask for help. *)
Definition is_value_flag (a : string) : bool :=
  String.eqb a "--db-path" || String.eqb a "--ollama-endpoint"
  || String.eqb a "--ollama-model".
Definition is_help_flag (a : string) : bool :=
  String.eqb a "--help" || String.eqb a "-h".

End Cli.

(** * Properties *)

(** ** Strings and objects *)

Lemma prefix_app (n rest : string) : String.prefix n (n +:+ rest) = true.
Proof.
  induction n as [|a n IH]; simpl.
  - by destruct rest.
  - destruct (Ascii.ascii_dec a a); [exact IH | congruence].
Qed.

Lemma prefix_app_l (n a b : string) :
  String.prefix n a = true -> String.prefix n (a +:+ b) = true.
Proof.
  revert a; induction n as [|c n IH]; intros a Hp.
  - by destruct (a +:+ b).
  - destruct a as [|c' a]; simpl in *; [done|].
    destruct (Ascii.ascii_dec c c'); [by apply IH | done].
Qed.

Lemma includes_prefix (n hay : string) :
  String.prefix n hay = true -> includes n hay = true.
Proof. destruct hay; simpl; by intros ->. Qed.

Lemma includes_self (n rest : string) : includes n (n +:+ rest) = true.
Proof. apply includes_prefix, prefix_app. Qed.

Lemma includes_app_r (n a b : string) :
  includes n b = true -> includes n (a +:+ b) = true.
Proof.
  intros Hb. induction a as [|c a IH]; simpl; [done|].
  rewrite IH. apply orb_true_r.
Qed.

Lemma includes_cons (n : string) (c : Ascii.ascii) (hay : string) :
  includes n (String c hay) = String.prefix n (String c hay) || includes n hay.
Proof. done. Qed.

Lemma includes_app_l (n a b : string) :
  includes n a = true -> includes n (a +:+ b) = true.
Proof.
  induction a as [|c a IH]; intros Ha.
  - destruct n; [|done]. apply includes_prefix. by destruct b.
  - change (String c a +:+ b) with (String c (a +:+ b)).
    rewrite includes_cons in Ha |- *.
    apply orb_true_iff in Ha as [Ha|Ha].
    + apply (prefix_app_l _ _ b) in Ha.
      change (String c a +:+ b) with (String c (a +:+ b)) in Ha. by rewrite Ha.
    + rewrite IH by done. apply orb_true_r.
Qed.

Lemma includes_refl (n : string) : includes n n = true.
Proof.
  pose proof (includes_self n "") as H.
  replace (n +:+ "") with n in H; [done|].
  clear H. induction n as [|c n IH]; [done|].
  change (String c n +:+ "") with (String c (n +:+ "")). by rewrite <- IH.
Qed.

(** The message of an error is part of what a template literal prints for
    it. *)
Lemma includes_Error_toString (e : JsError) :
  includes (err_message e) (Error_toString e) = true.
Proof.
  unfold Error_toString.
  destruct (String.eqb (err_name e) ""); [apply includes_refl|].
  destruct (String.eqb (err_message e) "") eqn:E.
  - apply String.eqb_eq in E. rewrite E. by destruct (err_name e).
  - apply includes_app_r, includes_app_r, includes_refl.
Qed.

Lemma obj_get_delete (k : string) (o : Obj) : obj_get k (obj_delete k o) = None.
Proof.
  induction o as [|[k' v] o IH]; simpl; [done|].
  destruct (String.eqb k k') eqn:E; [done|].
  simpl. by rewrite E.
Qed.

Lemma obj_get_delete_ne (k k' : string) (o : Obj) :
  k' <> k -> obj_get k' (obj_delete k o) = obj_get k' o.
Proof.
  intros Hne. induction o as [|[k0 v] o IH]; simpl; [done|].
  destruct (String.eqb k k0) eqn:E.
  - apply String.eqb_eq in E. subst k0.
    apply String.eqb_neq in Hne. by rewrite Hne.
  - simpl. by rewrite IH.
Qed.

(** ** What [processResults] does to the rows *)

Lemma processResults_strips (k : string) (rows : list Obj) :
  Forall2 (stripped k) rows (processResults false k rows).
Proof.
  unfold processResults; simpl.
  induction rows as [|row rows IH]; simpl; constructor; [|done].
  split; [apply obj_get_delete | intros; by apply obj_get_delete_ne].
Qed.

(** ** The validators *)

Lemma parse_map_inv {A B} (f : A -> B) (r : SafeParseReturn A) (b : B) :
  parse_map f r = ParseSuccess b -> exists a, r = ParseSuccess a /\ b = f a.
Proof. destruct r; simpl; [intros [= <-]; eauto | done]. Qed.

Lemma parse_both_inv {A B} (ra : SafeParseReturn A) (rb : SafeParseReturn B) (p : A * B) :
  parse_both ra rb = ParseSuccess p -> ra = ParseSuccess (fst p) /\ rb = ParseSuccess (snd p).
Proof. destruct ra, rb; simpl; [intros [= <-]; done | done..]. Qed.

Lemma z_optional_absent {A} (inner : Schema_of A) (path : Path) (x : option A) :
  z_optional inner path None = ParseSuccess x -> x = None.
Proof. simpl. by intros [= <-]. Qed.

(** With neither key in the arguments, the object schema can only give a
    value on which the refinement fails. *)
Lemma VectorSearchArgsObject_neither (o : Obj) (data : VectorSearchArgs) :
  obj_get "query_vector" o = None ->
  obj_get "query_text" o = None ->
  VectorSearchArgsObject (Some (JObj o)) = ParseSuccess data ->
  search_refinement data = false.
Proof.
  intros Hv Ht. unfold VectorSearchArgsObject. rewrite Hv, Ht.
  intros H. apply parse_map_inv in H as ([tn [qv [qt rest]]] & H & ->).
  apply parse_both_inv in H as [_ H]; cbn [fst snd] in H.
  apply parse_both_inv in H as [Hqv H]; cbn [fst snd] in Hqv, H.
  apply parse_both_inv in H as [Hqt _]; cbn [fst snd] in Hqt.
  apply z_optional_absent in Hqv, Hqt. subst.
  by destruct rest as [? [? [? ?]]].
Qed.

Lemma VectorSearchArgsSchema_neither (args : option json) :
  (forall o, args = Some (JObj o) ->
     obj_get "query_vector" o = None /\ obj_get "query_text" o = None) ->
  exists error, VectorSearchArgsSchema args = ParseFailure error.
Proof.
  intros Hn. unfold VectorSearchArgsSchema.
  destruct (VectorSearchArgsObject args) as [data|error] eqn:E; [|eauto].
  destruct args as [[| | | | |o]|]; try done.
  destruct (Hn o eq_refl) as [Hv Ht].
  rewrite (VectorSearchArgsObject_neither o data Hv Ht E). eauto.
Qed.

(** The value each key of the arguments was parsed to. *)
Lemma VectorSearchArgsObject_fields (o : Obj) (parsed : VectorSearchArgs) :
  VectorSearchArgsObject (Some (JObj o)) = ParseSuccess parsed ->
  z_string [PKey "table_name"] (obj_get "table_name" o)
    = ParseSuccess (table_name parsed) /\
  z_optional (z_array z_number) [PKey "query_vector"] (obj_get "query_vector" o)
    = ParseSuccess (query_vector parsed) /\
  z_optional z_string [PKey "query_text"] (obj_get "query_text" o)
    = ParseSuccess (query_text parsed) /\
  z_optional z_number [PKey "limit"] (obj_get "limit" o)
    = ParseSuccess (limit parsed) /\
  z_optional z_distance_type [PKey "distance_type"] (obj_get "distance_type" o)
    = ParseSuccess (distance_type parsed) /\
  z_optional z_string [PKey "where"] (obj_get "where" o)
    = ParseSuccess (where_ parsed) /\
  z_optional z_boolean [PKey "with_vectors"] (obj_get "with_vectors" o)
    = ParseSuccess (with_vectors parsed).
Proof.
  unfold VectorSearchArgsObject. intros H.
  apply parse_map_inv in H as ([tn [qv [qt [lim [dt [wh wv]]]]]] & H & ->).
  repeat (apply parse_both_inv in H as [? H]; cbn [fst snd] in * ).
  cbn [table_name query_vector query_text limit distance_type where_ with_vectors].
  repeat split; assumption.
Qed.

Lemma VectorSearchArgsSchema_fields (o : Obj) (parsed : VectorSearchArgs) :
  VectorSearchArgsSchema (Some (JObj o)) = ParseSuccess parsed ->
  VectorSearchArgsObject (Some (JObj o)) = ParseSuccess parsed.
Proof.
  unfold VectorSearchArgsSchema.
  destruct (VectorSearchArgsObject (Some (JObj o))) as [d|]; [|done].
  destruct (search_refinement d); [|done]. by intros [= <-].
Qed.

(** A call that passes validation is an object, and its [with_vectors]
    is absent or a boolean: the parsed flag is the one of the call. *)
Lemma with_vectors_of_the_call (args : option json) (parsed : VectorSearchArgs) :
  VectorSearchArgsSchema args = ParseSuccess parsed ->
  exists o,
    args = Some (JObj o) /\
    ((obj_get "with_vectors" o = None /\ with_vectors parsed = None) \/
     exists flag,
       obj_get "with_vectors" o = Some (JBool flag) /\ with_vectors parsed = Some flag).
Proof.
  intros Hp.
  assert (exists o, args = Some (JObj o)) as [o ->].
  { revert Hp. unfold VectorSearchArgsSchema, VectorSearchArgsObject.
    destruct args as [[| | | | |o]|]; try done. eauto. }
  exists o. split; [done|].
  apply VectorSearchArgsSchema_fields, VectorSearchArgsObject_fields in Hp.
  destruct Hp as (_ & _ & _ & _ & _ & _ & Hw). revert Hw.
  unfold z_optional, z_boolean.
  destruct (obj_get "with_vectors" o) as [[| flag | | | |]|]; cbn; try done.
  - intros [= <-]. right. by exists flag.
  - intros [= <-]. by left.
Qed.

(** *** The records of [vector_add] *)

Lemma z_number_items_inv (path : Path) (l : list json) :
  forall i vec, z_array_items z_number path i l = ParseSuccess vec -> l = map JNum vec.
Proof.
  induction l as [|x rest IH]; intros i vec H.
  - by injection H as <-.
  - cbn [z_array_items] in H. apply parse_map_inv in H as ([n ns] & H & ->).
    apply parse_both_inv in H as [Hx Hrest]. cbn [fst snd] in *.
    destruct x; try done. injection Hx as ->. by rewrite (IH _ _ Hrest).
Qed.

Lemma z_number_items_complete (path : Path) (vec : list number) :
  forall i, z_array_items z_number path i (map JNum vec) = ParseSuccess vec.
Proof.
  induction vec as [|n vec IH]; intros i; [done|].
  cbn [map z_array_items]. rewrite IH. done.
Qed.

Lemma z_vector_record_inv (path : Path) (item : json) (record : Obj) :
  z_vector_record path (Some item) = ParseSuccess record ->
  well_formed_record item /\ kept_record item record.
Proof.
  unfold z_vector_record. destruct item as [| | | | |ob]; try done.
  intros H. apply parse_map_inv in H as (vec & H & ->).
  unfold z_array in H. destruct (obj_get "vector" ob) as [[| | | |l|]|] eqn:Hv; try done.
  apply z_number_items_inv in H. subst l. split.
  - by exists ob, vec.
  - exists ob. split; [done|]. intros k. cbn [obj_get].
    destruct (String.eqb_spec k "vector") as [->|Hk]; [done|].
    by apply obj_get_delete_ne.
Qed.

Lemma z_vector_record_complete (path : Path) (item : json) :
  well_formed_record item -> parse_success (z_vector_record path (Some item)) = true.
Proof.
  intros (ob & nums & -> & Hv). unfold z_vector_record, z_array. rewrite Hv.
  by rewrite z_number_items_complete.
Qed.

Lemma z_record_items_inv (path : Path) (items : list json) :
  forall i records,
    z_array_items z_vector_record path i items = ParseSuccess records ->
    Forall well_formed_record items /\ Forall2 kept_record items records.
Proof.
  induction items as [|x rest IH]; intros i records H.
  - injection H as <-. by split.
  - cbn [z_array_items] in H. apply parse_map_inv in H as ([r rs] & H & ->).
    apply parse_both_inv in H as [Hx Hrest]. cbn [fst snd] in *.
    apply z_vector_record_inv in Hx as [Hw Hk].
    apply IH in Hrest as [Hws Hks]. split; by constructor.
Qed.

Lemma z_record_items_complete (path : Path) (items : list json) :
  Forall well_formed_record items ->
  forall i, parse_success (z_array_items z_vector_record path i items) = true.
Proof.
  induction 1 as [|x rest Hx _ IH]; intros i; [done|].
  cbn [z_array_items]. specialize (IH (S i)).
  apply (z_vector_record_complete (path ++ [PIndex i])) in Hx.
  destruct (z_vector_record _ _); [|done].
  by destruct (z_array_items _ _ _ _).
Qed.

(** ** The handler, case by case *)

Section HandlerFacts.
Context {W TH : Type} {store : Collaborators W TH} {printers : Printers}.
Variable cfg : Config.

#[local] Abbreviation handler := (CallToolRequestHandler (W:=W) (TH:=TH) cfg).

Lemma handler_vector_add (args : option json) (s : State W TH) :
  handler (mkRequest "vector_add" args) s = respond (vector_add args s).
Proof. reflexivity. Qed.

Lemma handler_vector_search (args : option json) (s : State W TH) :
  handler (mkRequest "vector_search" args) s = respond (vector_search cfg args s).
Proof. reflexivity. Qed.

Lemma handler_list_tables (args : option json) (s : State W TH) :
  handler (mkRequest "list_tables" args) s = respond (list_tables s).
Proof. reflexivity. Qed.

(** *** [vector_add] *)

Lemma vector_add_open_failed (args : option json) (parsed : VectorAddArgs)
    (s : State W TH) (error : JsError) (w1 : W) :
  VectorAddArgsSchema args = ParseSuccess parsed ->
  openTable (add_table_name parsed) (world s) = (inl error, w1) ->
  vector_add args s =
    let opened := mkState w1 (trace s ++ [EvOpenTable (add_table_name parsed) (inl error)]) in
    if includes "does not exist" (err_message error) then
      bind (db_createTable (add_table_name parsed) (add_vectors parsed))
        (fun _ => ret (text_result
           ("Created table " +:+ add_table_name parsed +:+ " and added "
            +:+ pretty (length (add_vectors parsed)) +:+ " vectors") false)) opened
    else (inl error, opened).
Proof.
  intros Hp Ho. unfold vector_add. rewrite Hp.
  unfold try_catch, bind at 1, db_openTable, call. rewrite Ho.
  by destruct (includes _ _).
Qed.

Lemma vector_add_opened (args : option json) (parsed : VectorAddArgs)
    (s : State W TH) (table : TH) (w1 w2 : W) :
  VectorAddArgsSchema args = ParseSuccess parsed ->
  openTable (add_table_name parsed) (world s) = (inr table, w1) ->
  table_add table (add_vectors parsed) w1 = (inr tt, w2) ->
  vector_add args s =
    (inr (text_result ("Added " +:+ pretty (length (add_vectors parsed))
                       +:+ " vectors to table " +:+ add_table_name parsed) false),
     mkState w2 (trace s ++ [EvOpenTable (add_table_name parsed) (inr table);
                             EvAdd table (add_vectors parsed) (inr tt)])).
Proof.
  intros Hp Ho Ha. unfold vector_add. rewrite Hp.
  unfold try_catch, bind, db_openTable, tbl_add, call, ret. rewrite Ho. simpl.
  rewrite Ha. by rewrite <- app_assoc.
Qed.

Lemma createTable_run (name : string) (rows : list Obj) (t : string)
    (s : State W TH) (rc : Result TH) (w2 : W) :
  createTable name rows (world s) = (rc, w2) ->
  bind (db_createTable name rows) (fun _ => ret (text_result t false)) s =
    (match rc with inr _ => inr (text_result t false) | inl e => inl e end,
     mkState w2 (trace s ++ [EvCreateTable name rows rc])).
Proof.
  intros Hc. unfold bind, db_createTable, call, ret. rewrite Hc. by destruct rc.
Qed.

Lemma vector_search_invalid (args : option json) (error : ZodError) (s : State W TH) :
  VectorSearchArgsSchema args = ParseFailure error ->
  handler (mkRequest "vector_search" args) s =
    (text_result ("Error: Invalid arguments for vector_search: "
                  +:+ ZodError_toString error) true, s).
Proof. intros Hp. rewrite handler_vector_search. unfold vector_search. by rewrite Hp. Qed.

Lemma new_events_app (s : State W TH) (w : W) (evs : list (Event TH)) :
  new_events s (mkState w (trace s ++ evs)) = evs.
Proof. unfold new_events; simpl. by rewrite drop_app_length. Qed.

Lemma new_events_refl (s : State W TH) : new_events s s = [].
Proof. unfold new_events. by rewrite drop_all. Qed.

(** *** The claims on validation and on [vector_add] *)

(** C3.  A [vector_search] call that supplies neither [query_vector] nor
    [query_text] fails validation: the handler answers with the
    validation error, flagged [isError], and returns the state it was given,
    so no table was opened, nothing was searched, nothing was logged and the
    store is as it was. *)
Theorem search_without_query_is_rejected (args : option json) (s : State W TH) :
  (forall o, args = Some (JObj o) ->
     obj_get "query_vector" o = None /\ obj_get "query_text" o = None) ->
  exists error,
    VectorSearchArgsSchema args = ParseFailure error /\
    handler (mkRequest "vector_search" args) s =
      (text_result ("Error: Invalid arguments for vector_search: "
                    +:+ ZodError_toString error) true, s) /\
    new_events s (snd (handler (mkRequest "vector_search" args) s)) = [].
Proof.
  intros Hn. destruct (VectorSearchArgsSchema_neither args Hn) as [error He].
  exists error. rewrite (vector_search_invalid args error s He).
  split; [done|]. split; [done|]. apply new_events_refl.
Qed.

(** C1.  A valid [vector_add] call whose open throws an error without the
    words "does not exist" in its message is answered with that error,
    flagged [isError]; the open is the only call made, so [createTable] is
    not called.  The error of the library for a table that is missing,
    "Table '<name>' was not found", is such an error: a call naming a table
    that does not exist is answered with a failure and the table is not
    created. *)
Theorem missing_table_is_reported_not_created
    (args : option json) (parsed : VectorAddArgs) (s : State W TH)
    (error : JsError) (w1 : W) :
  VectorAddArgsSchema args = ParseSuccess parsed ->
  openTable (add_table_name parsed) (world s) = (inl error, w1) ->
  includes "does not exist" (err_message error) = false ->
  handler (mkRequest "vector_add" args) s =
    (text_result ("Error: " +:+ err_message error) true,
     mkState w1 (trace s ++ [EvOpenTable (add_table_name parsed) (inl error)])).
Proof.
  intros Hp Ho Hinc. rewrite handler_vector_add.
  rewrite (vector_add_open_failed args parsed s error w1 Hp Ho). cbv zeta.
  by rewrite Hinc.
Qed.

(** Arguments with a string [table_name] and an empty [vectors] array pass
    validation; on any store, when the table opens and the store's [add] of
    the empty batch returns, the handler reports
    "Added 0 vectors to table <name>", and its only calls are that open and
    that [add]. *)
Lemma vector_add_empty_batch (o : Obj) (name : string) :
  obj_get "table_name" o = Some (JStr name) ->
  obj_get "vectors" o = Some (JArr []) ->
  VectorAddArgsSchema (Some (JObj o)) = ParseSuccess (mkVectorAddArgs name []) /\
  forall (s : State W TH) table w1 w2,
    openTable name (world s) = (inr table, w1) ->
    table_add table [] w1 = (inr tt, w2) ->
    handler (mkRequest "vector_add" (Some (JObj o))) s =
      (text_result ("Added 0 vectors to table " +:+ name) false,
       mkState w2 (trace s ++ [EvOpenTable name (inr table); EvAdd table [] (inr tt)])).
Proof.
  intros Hn Hv.
  assert (Hp : VectorAddArgsSchema (Some (JObj o)) = ParseSuccess (mkVectorAddArgs name [])).
  { unfold VectorAddArgsSchema. by rewrite Hn, Hv. }
  split; [exact Hp|]. intros s table w1 w2 Ho Ha.
  rewrite handler_vector_add.
  by rewrite (vector_add_opened _ _ s table w1 w2 Hp Ho Ha).
Qed.

(** *** [vector_search], step by step *)

Lemma vector_search_valid (args : option json) (parsed : VectorSearchArgs) (s : State W TH) :
  VectorSearchArgsSchema args = ParseSuccess parsed ->
  handler (mkRequest "vector_search" args) s =
    match vector_search_body cfg parsed s with
    | (inr result, s') => (result, s')
    | (inl error, s') =>
        (text_result ("Error: " +:+ "Error searching table " +:+ table_name parsed
                      +:+ ": " +:+ Error_toString error) true, s')
    end.
Proof.
  intros Hp. rewrite handler_vector_search. unfold vector_search. rewrite Hp.
  unfold try_catch. by destruct (vector_search_body cfg parsed s) as [[error|result] s'].
Qed.

Lemma generateEmbedding_run (t : string) (s : State W TH) (fetched : Result Response) (w' : W) :
  fetch (ollamaEndpoint cfg) (embedding_request cfg t) (world s) = (fetched, w') ->
  generateEmbedding cfg t s =
    let ev := EvFetch (ollamaEndpoint cfg) (embedding_request cfg t) fetched in
    match embedding_of fetched with
    | inl error =>
        (inl error,
         mkState w' (trace s ++ [ev; EvLog ("Error generating embedding: "
                                            +:+ err_message error)]))
    | inr v => (inr v, mkState w' (trace s ++ [ev]))
    end.
Proof.
  intros Hf. unfold generateEmbedding, try_catch, bind, do_fetch, call, of_result.
  rewrite Hf. cbv zeta. destruct fetched as [error|response]; cbn [embedding_of].
  - unfold console_error, throw. cbn [world trace]. by rewrite <- app_assoc.
  - destruct (read_embedding response) as [error|v]; [|done].
    unfold console_error, throw. cbn [world trace]. by rewrite <- app_assoc.
Qed.

Lemma resolve_by_vector (v : list number) (qt : option string) (s : State W TH) :
  resolve_searchVector cfg (Some v) qt s = (inr v, s).
Proof. done. Qed.

Lemma resolve_by_text (t : string) (s : State W TH) (fetched : Result Response) (w' : W) :
  t <> "" ->
  fetch (ollamaEndpoint cfg) (embedding_request cfg t) (world s) = (fetched, w') ->
  resolve_searchVector cfg None (Some t) s =
    let asked := EvLog ("Generating embedding for text: " +:+ quoted t) in
    let ev := EvFetch (ollamaEndpoint cfg) (embedding_request cfg t) fetched in
    match embedding_of fetched with
    | inl error =>
        (inl error,
         mkState w' (trace s ++ [asked; ev; EvLog ("Error generating embedding: "
                                                   +:+ err_message error)]))
    | inr v =>
        (inr v,
         mkState w' (trace s ++ [asked; ev; EvLog ("Generated embedding with dimension: "
                                                   +:+ pretty (length v))]))
    end.
Proof.
  intros Ht Hf. unfold resolve_searchVector.
  apply String.eqb_neq in Ht. rewrite Ht. cbn [negb].
  unfold bind at 1. unfold console_error at 1. unfold bind at 1.
  erewrite generateEmbedding_run by exact Hf. cbv zeta.
  destruct (embedding_of fetched) as [error|v]; cbn [world trace].
  - by rewrite <- app_assoc.
  - unfold bind, console_error, ret. cbn [world trace]. by rewrite <- !app_assoc.
Qed.

Lemma resolve_without_query (qt : option string) (s : State W TH) :
  qt = None \/ qt = Some "" ->
  resolve_searchVector cfg None qt s =
    (inl (new_Error "Either query_vector or query_text must be provided"), s).
Proof. by intros [->| ->]. Qed.

Lemma search_resolved_run (table : TH) (sv : list number) (parsed : VectorSearchArgs)
    (s : State W TH) (got : Result Schema) (w3 : W) :
  table_schema table (world s) = (got, w3) ->
  search_resolved table sv parsed s =
    match got with
    | inl error => (inl error, mkState w3 (trace s ++ [EvSchema table (inl error)]))
    | inr schema =>
        match List.find is_vector_field (fields schema) with
        | None =>
            (inl (new_Error "No vector column found in the table"),
             mkState w3 (trace s ++ [EvSchema table (inr schema)]))
        | Some vectorField =>
            let query := build_query sv parsed in
            let (found, w4) := query_toArray table query w3 in
            (match found with
             | inl error => inl error
             | inr rows =>
                 inr (text_result
                        (JSON_stringify_indent
                           (JArr (map JObj
                              (processResults (default false (with_vectors parsed))
                                 (field_name vectorField) rows)))) false)
             end,
             mkState w4 (trace s ++ EvSchema table (inr schema)
                                 :: warning_events sv vectorField
                                 ++ [EvToArray table query found]))
        end
    end.
Proof.
  intros Hs. unfold search_resolved, bind at 1, tbl_schema, call. rewrite Hs.
  destruct got as [error|schema]; [done|].
  destruct (List.find is_vector_field (fields schema)) as [vf|]; [|done].
  unfold warning_events, bind, tbl_toArray, call, console_error, ret. cbv zeta.
  destruct (dimension_differs sv (listSize (field_type vf))); cbn [world trace];
    destruct (query_toArray table (build_query sv parsed) w3) as [[error|rows] w4];
    by rewrite <- !app_assoc.
Qed.

Lemma vector_search_body_run (parsed : VectorSearchArgs) (s : State W TH)
    (opened : Result TH) (w1 : W) :
  openTable (table_name parsed) (world s) = (opened, w1) ->
  vector_search_body cfg parsed s =
    let s1 := mkState w1 (trace s ++ [EvOpenTable (table_name parsed) opened]) in
    match opened with
    | inl error => (inl error, s1)
    | inr table =>
        match resolve_searchVector cfg (query_vector parsed) (query_text parsed) s1 with
        | (inl error, s2) => (inl error, s2)
        | (inr sv, s2) => search_resolved table sv parsed s2
        end
    end.
Proof.
  intros Ho. unfold vector_search_body, bind at 1, db_openTable, call. rewrite Ho.
  destruct opened as [error|table]; [done|]. by unfold bind.
Qed.

Lemma dimension_differs_true (sv : list number) (d : option Z) :
  d <> Some (Z.of_nat (length sv)) -> dimension_differs sv d = true.
Proof.
  intros Hd. unfold dimension_differs. destruct d as [n|]; [|done].
  destruct (Z.eqb_spec (Z.of_nat (length sv)) n) as [Heq|]; [|done].
  destruct Hd. by rewrite Heq.
Qed.

Lemma q_vector_build_query (sv : list number) (parsed : VectorSearchArgs) :
  q_vector (build_query sv parsed) = sv.
Proof.
  unfold build_query. destruct (where_ parsed) as [w|]; [|done].
  by destruct (negb (String.eqb w "")).
Qed.

Lemma find_vector_field_none (l : list Field) :
  (forall field, In field l ->
     ~ (typeId (field_type field) = 16%Z /\
        exists n, listSize (field_type field) = Some n /\ (10 < n)%Z)) ->
  List.find is_vector_field l = None.
Proof.
  induction l as [|f l IH]; intros Hno; [done|]. simpl.
  destruct (is_vector_field f) eqn:Hf.
  - exfalso. apply (Hno f); [by left|]. unfold is_vector_field in Hf.
    apply andb_true_iff in Hf as [Ht Hs]. split; [by apply Z.eqb_eq|].
    destruct (listSize (field_type f)) as [n|]; [|done].
    exists n. split; [done|]. by apply Z.ltb_lt.
  - apply IH. intros field Hin. apply Hno. by right.
Qed.

Lemma read_embedding_returns (response : Response) (v : list number) :
  read_embedding response = inr v ->
  ok response = true /\ exists data, response_json response = inr data /\ v = embedding data.
Proof.
  unfold read_embedding. destruct (ok response); [|done]. simpl.
  destruct (response_json response) as [error|data]; [done|].
  intros [= <-]. eauto.
Qed.

(** The three ways [resolve_searchVector] can go. *)
Lemma resolve_cases (qv : option (list number)) (qt : option string) (s : State W TH) :
  (exists v, qv = Some v /\ resolve_searchVector cfg qv qt s = (inr v, s)) \/
  (qv = None /\ (qt = None \/ qt = Some "") /\
   resolve_searchVector cfg qv qt s =
     (inl (new_Error "Either query_vector or query_text must be provided"), s)) \/
  (exists t fetched w',
     qv = None /\ qt = Some t /\ t <> "" /\
     fetch (ollamaEndpoint cfg) (embedding_request cfg t) (world s) = (fetched, w') /\
     resolve_searchVector cfg qv qt s =
       let asked := EvLog ("Generating embedding for text: " +:+ quoted t) in
       let ev := EvFetch (ollamaEndpoint cfg) (embedding_request cfg t) fetched in
       match embedding_of fetched with
       | inl error =>
           (inl error,
            mkState w' (trace s ++ [asked; ev; EvLog ("Error generating embedding: "
                                                      +:+ err_message error)]))
       | inr v =>
           (inr v,
            mkState w' (trace s ++ [asked; ev; EvLog ("Generated embedding with dimension: "
                                                      +:+ pretty (length v))]))
       end).
Proof.
  destruct qv as [v|]; [left; eauto|]. right.
  destruct qt as [t|]; [|left; auto using resolve_without_query].
  destruct (String.eqb_spec t "") as [->|Ht]; [left; auto using resolve_without_query|].
  right. destruct (fetch (ollamaEndpoint cfg) (embedding_request cfg t) (world s))
    as [fetched w'] eqn:Hf.
  exists t, fetched, w'. repeat split; try done. by apply resolve_by_text.
Qed.

(** Case analysis on a membership in an explicit list of events. *)
Ltac in_cases :=
  repeat match goal with
    | H : In _ [] |- _ => destruct H
    | H : In _ (_ :: _) |- _ => destruct H as [H|H]
    | H : @eq (Event _) ?a ?b |- _ =>
        first [discriminate H | is_var b; subst b | is_var a; subst a
              | injection H as ?; subst]
    | H : event_error _ = Some _ |- _ => progress (cbn in H)
    | H : @eq (option JsError) _ _ |- _ => first [discriminate H | injection H as ?; subst]
    end.

(** Bring the trace of a run to the form [trace s ++ events]. *)
Ltac trace_norm :=
  cbn [world trace fst snd]; rewrite <- ?app_assoc; cbn [app];
  rewrite ?new_events_app.

(** A goal about one of the events of a run whose events are explicit. *)
Ltac by_events :=
  trace_norm; let Hin := fresh "Hin" in intros Hin; in_cases; try done; auto.

(** *** The claims on [vector_search] *)

(** C6, as amended.  When the schema lookup finds a vector column (the
    first field of type id 16 and list size above 10) and the length of the
    resolved query vector differs from the dimension of that column, the
    handler logs one warning line and then issues the similarity search with
    that vector; the response is the one the search decides: the rows it
    returns give the success response, and only an error thrown by the
    search gives a failure. *)
Theorem dimension_mismatch_only_warns
    (args : option json) (parsed : VectorSearchArgs) (s s2 : State W TH)
    (table : TH) (w1 w3 w4 : W) (sv : list number) (schema : Schema)
    (vectorField : Field) (found : Result (list Obj)) :
  VectorSearchArgsSchema args = ParseSuccess parsed ->
  openTable (table_name parsed) (world s) = (inr table, w1) ->
  resolve_searchVector cfg (query_vector parsed) (query_text parsed)
    (mkState w1 (trace s ++ [EvOpenTable (table_name parsed) (inr table)])) = (inr sv, s2) ->
  table_schema table (world s2) = (inr schema, w3) ->
  List.find is_vector_field (fields schema) = Some vectorField ->
  listSize (field_type vectorField) <> Some (Z.of_nat (length sv)) ->
  query_toArray table (build_query sv parsed) w3 = (found, w4) ->
  handler (mkRequest "vector_search" args) s =
    (match found with
     | inr rows =>
         text_result
           (JSON_stringify_indent
              (JArr (map JObj (processResults (default false (with_vectors parsed))
                                 (field_name vectorField) rows)))) false
     | inl error =>
         text_result ("Error: Error searching table " +:+ table_name parsed
                      +:+ ": " +:+ Error_toString error) true
     end,
     mkState w4
       (trace s2 ++ [EvSchema table (inr schema);
                     EvLog (dimension_warning sv (listSize (field_type vectorField)));
                     EvToArray table (build_query sv parsed) found])) /\
  q_vector (build_query sv parsed) = sv.
Proof.
  intros Hp Ho Hr Hs Hf Hd Hq. split; [|apply q_vector_build_query].
  rewrite (vector_search_valid args parsed s Hp).
  rewrite (vector_search_body_run parsed s _ w1 Ho). cbv zeta. rewrite Hr.
  rewrite (search_resolved_run table sv parsed s2 _ w3 Hs). rewrite Hf. cbv zeta.
  rewrite Hq. unfold warning_events. rewrite (dimension_differs_true _ _ Hd).
  by destruct found.
Qed.

(** C9, as amended.  For a [vector_search] call that passes validation,
    whose table opens and whose query vector is resolved, against a schema
    with no field of type id 16 and list size above 10 (so also a table whose
    only vector column has dimension 10 or less), the handler returns a
    failure whose text ends with "No vector column found in the table", and
    no search is issued. *)
Theorem narrow_vector_column_is_not_found
    (args : option json) (parsed : VectorSearchArgs) (s s2 : State W TH)
    (table : TH) (w1 w3 : W) (sv : list number) (schema : Schema) :
  VectorSearchArgsSchema args = ParseSuccess parsed ->
  openTable (table_name parsed) (world s) = (inr table, w1) ->
  resolve_searchVector cfg (query_vector parsed) (query_text parsed)
    (mkState w1 (trace s ++ [EvOpenTable (table_name parsed) (inr table)])) = (inr sv, s2) ->
  table_schema table (world s2) = (inr schema, w3) ->
  (forall field, In field (fields schema) ->
     ~ (typeId (field_type field) = 16%Z /\
        exists n, listSize (field_type field) = Some n /\ (10 < n)%Z)) ->
  let failure := "Error: Error searching table " +:+ table_name parsed
                 +:+ ": Error: No vector column found in the table" in
  handler (mkRequest "vector_search" args) s =
    (text_result failure true,
     mkState w3 (trace s2 ++ [EvSchema table (inr schema)])) /\
  includes "No vector column found in the table" failure = true.
Proof.
  intros Hp Ho Hr Hs Hno. cbv zeta. split.
  - rewrite (vector_search_valid args parsed s Hp).
    rewrite (vector_search_body_run parsed s _ w1 Ho). cbv zeta. rewrite Hr.
    rewrite (search_resolved_run table sv parsed s2 _ w3 Hs).
    by rewrite (find_vector_field_none _ Hno).
  - apply includes_app_r, includes_app_r.
    apply (includes_app_r _ ": Error: "), includes_refl.
Qed.

(** C4, as amended.  For a valid [vector_search] call whose table opens:
    when [query_text] is given, not empty, and no [query_vector] is given,
    the embeddings endpoint is asked exactly once, and a similarity search,
    if one is issued, carries exactly the vector of the endpoint's answer;
    when a [query_vector] is given, it is the vector of the search and the
    endpoint is not asked, whether or not [query_text] is given too. *)
Theorem query_text_is_embedded_once
    (args : option json) (parsed : VectorSearchArgs) (s : State W TH)
    (table : TH) (w1 : W) :
  VectorSearchArgsSchema args = ParseSuccess parsed ->
  openTable (table_name parsed) (world s) = (inr table, w1) ->
  let events := new_events s (snd (handler (mkRequest "vector_search" args) s)) in
  (forall t,
     query_vector parsed = None -> query_text parsed = Some t -> t <> "" ->
     length (List.filter is_fetch_event events) = 1 /\
     forall table' query found,
       In (EvToArray table' query found) events ->
       exists response data,
         In (EvFetch (ollamaEndpoint cfg) (embedding_request cfg t) (inr response)) events /\
         response_json response = inr data /\
         q_vector query = embedding data) /\
  (forall v,
     query_vector parsed = Some v ->
     List.filter is_fetch_event events = [] /\
     forall table' query found,
       In (EvToArray table' query found) events -> q_vector query = v).
Proof.
  intros Hp Ho. cbv zeta.
  rewrite (vector_search_valid args parsed s Hp).
  rewrite (vector_search_body_run parsed s _ w1 Ho). cbv zeta.
  set (s1 := mkState w1 _).
  split.
  - intros t Hqv Hqt Ht. rewrite Hqv, Hqt.
    destruct (fetch (ollamaEndpoint cfg) (embedding_request cfg t) (world s1))
      as [fetched w'] eqn:Hf.
    rewrite (resolve_by_text t s1 fetched w' Ht Hf). cbv zeta.
    destruct fetched as [error|response]; cbn [embedding_of].
    { subst s1. trace_norm. split; [done|]. intros; in_cases. }
    destruct (read_embedding response) as [error|v] eqn:Hre.
    { subst s1. trace_norm. split; [done|]. intros; in_cases. }
    apply read_embedding_returns in Hre as (_ & data & Hdata & ->).
    match goal with |- context [search_resolved ?tb ?sv ?pa ?st] =>
      destruct (table_schema tb (world st)) as [got w3] eqn:Hs;
      rewrite (search_resolved_run tb sv pa st got w3 Hs) end.
    destruct got as [error|schema].
    { subst s1. trace_norm. split; [done|]. intros; in_cases. }
    destruct (List.find is_vector_field (fields schema)) as [vf|].
    2:{ subst s1. trace_norm. split; [done|]. intros; in_cases. }
    cbv zeta. destruct (query_toArray _ _ _) as [[error|rows] w4];
      unfold warning_events; destruct (dimension_differs _ _);
      subst s1; trace_norm; (split; [done|]);
      intros table' query found' Hin; exists response, data;
      (split; [right; right; by left|]); (split; [done|]);
      in_cases; apply q_vector_build_query.
  - intros v Hqv. rewrite Hqv, resolve_by_vector.
    match goal with |- context [search_resolved ?tb ?sv ?pa ?st] =>
      destruct (table_schema tb (world st)) as [got w3] eqn:Hs;
      rewrite (search_resolved_run tb sv pa st got w3 Hs) end.
    destruct got as [error|schema].
    { subst s1. trace_norm. split; [done|]. intros; in_cases. }
    destruct (List.find is_vector_field (fields schema)) as [vf|].
    2:{ subst s1. trace_norm. split; [done|]. intros; in_cases. }
    cbv zeta. destruct (query_toArray _ _ _) as [[error|rows] w4];
      unfold warning_events; destruct (dimension_differs _ _);
      subst s1; trace_norm; (split; [done|]);
      intros table' query found' Hin;
      in_cases; apply q_vector_build_query.
Qed.

(** C2.  A [vector_search] call that returns results is an object; its
    response is, as one JSON text, the rows the store gave for the search,
    processed by the [with_vectors] of the call, which is absent or a
    boolean: when it is absent or [false], every returned record lacks the
    table's vector column and agrees with the row of the store on every
    other field; when it is [true], the rows are returned as the store gave
    them, vector column included. *)
Theorem search_results_hide_vector_column
    (args : option json) (s s' : State W TH) (result : CallToolResult) :
  handler (mkRequest "vector_search" args) s = (result, s') ->
  isError result = false ->
  exists o parsed table schema vectorField query rows,
    args = Some (JObj o) /\
    VectorSearchArgsSchema args = ParseSuccess parsed /\
    In (EvSchema table (inr schema)) (new_events s s') /\
    List.find is_vector_field (fields schema) = Some vectorField /\
    In (EvToArray table query (inr rows)) (new_events s s') /\
    let returned :=
      processResults (default false (with_vectors parsed)) (field_name vectorField) rows in
    result = text_result (JSON_stringify_indent (JArr (map JObj returned))) false /\
    (obj_get "with_vectors" o = None \/ obj_get "with_vectors" o = Some (JBool false) ->
     Forall2 (stripped (field_name vectorField)) rows returned) /\
    (obj_get "with_vectors" o = Some (JBool true) -> returned = rows) /\
    (obj_get "with_vectors" o = None \/
     exists flag, obj_get "with_vectors" o = Some (JBool flag)).
Proof.
  intros Hrun Hok.
  destruct (VectorSearchArgsSchema args) as [parsed|error] eqn:Hp.
  2:{ rewrite (vector_search_invalid args error s Hp) in Hrun.
      injection Hrun as <- <-. done. }
  destruct (with_vectors_of_the_call args parsed Hp) as (o & Hargs & Hflag).
  rewrite (vector_search_valid args parsed s Hp) in Hrun.
  destruct (openTable (table_name parsed) (world s)) as [[error|table] w1] eqn:Ho;
    rewrite (vector_search_body_run parsed s _ w1 Ho) in Hrun; cbv zeta in Hrun.
  { injection Hrun as <- <-. done. }
  set (s1 := mkState w1 _) in Hrun.
  assert (exists sv s2 before,
            resolve_searchVector cfg (query_vector parsed) (query_text parsed) s1
              = (inr sv, s2) /\ trace s2 = trace s ++ before) as (sv & s2 & before & Hr & Ht).
  { destruct (resolve_cases (query_vector parsed) (query_text parsed) s1)
      as [(v & _ & Hr) | [(_ & _ & Hr) | (t & fetched & w' & _ & _ & _ & _ & Hr)]];
      rewrite Hr in Hrun |- *.
    - exists v, s1, [EvOpenTable (table_name parsed) (inr table)]. done.
    - injection Hrun as <- <-. done.
    - cbv zeta in Hrun |- *. destruct (embedding_of fetched) as [error|v].
      + injection Hrun as <- <-. done.
      + eexists _, _, _. split; [reflexivity|]. subst s1. trace_norm. reflexivity. }
  rewrite Hr in Hrun.
  destruct (table_schema table (world s2)) as [[error|schema] w3] eqn:Hs;
    rewrite (search_resolved_run table sv parsed s2 _ w3 Hs) in Hrun.
  { injection Hrun as <- <-. done. }
  destruct (List.find is_vector_field (fields schema)) as [vf|] eqn:Hf.
  2:{ injection Hrun as <- <-. done. }
  cbv zeta in Hrun.
  destruct (query_toArray table (build_query sv parsed) w3) as [[error|rows] w4].
  { injection Hrun as <- <-. done. }
  injection Hrun as <- <-.
  exists o, parsed, table, schema, vf, (build_query sv parsed), rows.
  assert (Hnew : new_events s
            (mkState w4 (trace s2 ++ EvSchema table (inr schema)
                           :: warning_events sv vf
                           ++ [EvToArray table (build_query sv parsed) (inr rows)]))
          = before ++ EvSchema table (inr schema)
              :: warning_events sv vf
              ++ [EvToArray table (build_query sv parsed) (inr rows)]).
  { unfold new_events. cbn [trace]. rewrite Ht, <- app_assoc. apply drop_app_length. }
  rewrite Hnew. cbv zeta.
  split; [done|]. split; [done|]. split; [apply in_or_app; right; by left|]. split; [done|].
  split; [apply in_or_app; right; right; apply in_or_app; right; by left|].
  split; [done|]. split; [|split].
  - intros Hraw.
    assert (default false (with_vectors parsed) = false) as ->.
    { destruct Hflag as [[_ ->]|(flag & Hget & ->)]; [done|].
      destruct Hraw as [Hraw|Hraw]; rewrite Hraw in Hget; [done|]. by injection Hget as <-. }
    apply processResults_strips.
  - intros Hraw.
    assert (default false (with_vectors parsed) = true) as ->.
    { destruct Hflag as [[Hget _]|(flag & Hget & ->)]; rewrite Hraw in Hget; [done|].
      by injection Hget as <-. }
    done.
  - destruct Hflag as [[Hget _]|(flag & Hget & _)]; [by left | right; by exists flag].
Qed.

(** Where thrown errors are wrapped.  An error thrown by the store or by
    the embeddings endpoint while [vector_search] or [list_tables] runs
    gives a response flagged [isError] whose text carries the error with the
    operation: "Error searching table <name>: " followed by the error in
    [vector_search] (this holds of everything its [try] block throws, so
    also of the error made from a response that is not [ok]), and
    "Error listing tables: " followed by the error in [list_tables]. *)
Lemma search_and_listing_errors_are_wrapped
    (args : option json) (s : State W TH) (ev : Event TH) (error : JsError) :
  event_error ev = Some error ->
  (forall parsed thrown s',
     VectorSearchArgsSchema args = ParseSuccess parsed ->
     vector_search_body cfg parsed s = (inl thrown, s') ->
     handler (mkRequest "vector_search" args) s =
       (text_result ("Error: Error searching table " +:+ table_name parsed
                     +:+ ": " +:+ Error_toString thrown) true, s')) /\
  (In ev (new_events s (snd (handler (mkRequest "vector_search" args) s))) ->
   exists parsed,
     VectorSearchArgsSchema args = ParseSuccess parsed /\
     let failure := "Error: Error searching table " +:+ table_name parsed
                    +:+ ": " +:+ Error_toString error in
     fst (handler (mkRequest "vector_search" args) s) = text_result failure true /\
     includes (err_message error) failure = true /\
     includes (table_name parsed) failure = true) /\
  (In ev (new_events s (snd (handler (mkRequest "list_tables" args) s))) ->
   let failure := "Error: Error listing tables: " +:+ Error_toString error in
   fst (handler (mkRequest "list_tables" args) s) = text_result failure true /\
   includes (err_message error) failure = true).
Proof.
  intros Herr. split; [|split].
  - (* whatever the [try] block of vector_search throws *)
    intros parsed thrown s' Hp Hbody.
    rewrite (vector_search_valid args parsed s Hp). by rewrite Hbody.
  - (* vector_search *)
    destruct (VectorSearchArgsSchema args) as [parsed|zerr] eqn:Hp.
    2:{ rewrite (vector_search_invalid args zerr s Hp). cbn [snd].
        rewrite new_events_refl. intros []. }
    intros Hin. exists parsed. split; [done|]. cbv zeta.
    split; [|split].
    2:{ apply (includes_app_r _ "Error: Error searching table ").
        apply includes_app_r, includes_app_r, includes_Error_toString. }
    2:{ apply (includes_app_r _ "Error: Error searching table "), includes_self. }
    revert Hin. rewrite (vector_search_valid args parsed s Hp).
    destruct (openTable (table_name parsed) (world s)) as [[e|table] w1] eqn:Ho;
      rewrite (vector_search_body_run parsed s _ w1 Ho); cbv zeta.
    { by_events. }
    set (s1 := mkState w1 _).
    destruct (resolve_cases (query_vector parsed) (query_text parsed) s1)
      as [(v & _ & Hr) | [(_ & _ & Hr) | (t & fetched & w' & _ & _ & _ & _ & Hr)]];
      rewrite Hr; clear Hr.
    + match goal with |- context [search_resolved ?tb ?sv ?pa ?st] =>
        destruct (table_schema tb (world st)) as [[e|schema] w3] eqn:Hs;
        rewrite (search_resolved_run tb sv pa st _ w3 Hs) end.
      { subst s1. by_events. }
      destruct (List.find is_vector_field (fields schema)) as [vf|].
      2:{ subst s1. by_events. }
      cbv zeta. destruct (query_toArray _ _ _) as [[e|rows] w4];
        unfold warning_events; destruct (dimension_differs _ _);
        subst s1; by_events.
    + subst s1. by_events.
    + cbv zeta. destruct fetched as [e|response]; cbn [embedding_of].
      { subst s1. by_events. }
      destruct (read_embedding response) as [e|v].
      { subst s1. by_events. }
      match goal with |- context [search_resolved ?tb ?sv ?pa ?st] =>
        destruct (table_schema tb (world st)) as [[e|schema] w3] eqn:Hs;
        rewrite (search_resolved_run tb sv pa st _ w3 Hs) end.
      { subst s1. by_events. }
      destruct (List.find is_vector_field (fields schema)) as [vf|].
      2:{ subst s1. by_events. }
      cbv zeta. destruct (query_toArray _ _ _) as [[e|rows] w4];
        unfold warning_events; destruct (dimension_differs _ _);
        subst s1; by_events.
  - (* list_tables *)
    intros Hin. cbv zeta. split.
    2:{ apply (includes_app_r _ "Error: Error listing tables: "),
          includes_Error_toString. }
    revert Hin. rewrite handler_list_tables.
    unfold list_tables, try_catch, bind, db_tableNames, call, ret, throw.
    destruct (tableNames (world s)) as [[e|names] w']; cbn [respond];
      by_events.
Qed.

(** *** More on the handler *)

Lemma find_first_vector_field (pre post : list Field) (f : Field) :
  Forall (fun g => is_vector_field g = false) pre ->
  is_vector_field f = true ->
  List.find is_vector_field (pre ++ f :: post) = Some f.
Proof.
  induction 1 as [|g pre Hg _ IH]; intros Hf; simpl.
  - by rewrite Hf.
  - rewrite Hg. by apply IH.
Qed.

(** What a [case] returns, when it returns, is one text item that is not
    flagged. *)
Lemma vector_add_returns_text (args : option json) (s s' : State W TH)
    (result : CallToolResult) :
  vector_add args s = (inr result, s') -> exists t, result = text_result t false.
Proof.
  unfold vector_add. destruct (VectorAddArgsSchema args) as [parsed|zerr]; [|done].
  unfold try_catch, bind, db_openTable, db_createTable, tbl_add, call, ret, throw.
  destruct (openTable _ _) as [[e|table] w1]; cbn [world trace].
  - destruct (includes _ _); [|done].
    destruct (createTable _ _ _) as [[e'|table] w2]; [done|]. intros [= <- _]. eauto.
  - destruct (table_add _ _ _) as [[e|[]] w2]; cbn [world trace].
    + destruct (includes _ _); [|done].
      destruct (createTable _ _ _) as [[e'|table'] w3]; [done|]. intros [= <- _]. eauto.
    + intros [= <- _]. eauto.
Qed.

Lemma search_resolved_returns_text (table : TH) (sv : list number)
    (parsed : VectorSearchArgs) (s s' : State W TH) (result : CallToolResult) :
  search_resolved table sv parsed s = (inr result, s') ->
  exists t, result = text_result t false.
Proof.
  destruct (table_schema table (world s)) as [[e|schema] w3] eqn:Hs;
    rewrite (search_resolved_run table sv parsed s _ w3 Hs); [done|].
  destruct (List.find is_vector_field (fields schema)) as [vf|]; [|done].
  cbv zeta. destruct (query_toArray _ _ _) as [[e|rows] w4]; [done|].
  intros [= <- _]. eauto.
Qed.

Lemma vector_search_returns_text (args : option json) (s s' : State W TH)
    (result : CallToolResult) :
  vector_search cfg args s = (inr result, s') -> exists t, result = text_result t false.
Proof.
  unfold vector_search. destruct (VectorSearchArgsSchema args) as [parsed|zerr]; [|done].
  unfold try_catch.
  destruct (openTable (table_name parsed) (world s)) as [[e|table] w1] eqn:Ho;
    rewrite (vector_search_body_run parsed s _ w1 Ho); cbv zeta; [done|].
  destruct (resolve_searchVector _ _ _ _) as [[e|sv] s2]; [done|].
  destruct (search_resolved table sv parsed s2) as [[e|r] s3] eqn:Hr; [done|].
  intros [= <- _]. by apply search_resolved_returns_text in Hr.
Qed.

Lemma list_tables_returns_text (s s' : State W TH) (result : CallToolResult) :
  list_tables s = (inr result, s') -> exists t, result = text_result t false.
Proof.
  unfold list_tables, try_catch, bind, db_tableNames, call, ret, throw.
  destruct (tableNames (world s)) as [[e|names] w']; [done|]. intros [= <- _]. eauto.
Qed.

Lemma vector_add_add_failed (args : option json) (parsed : VectorAddArgs)
    (s : State W TH) (table : TH) (w1 w2 : W) (error : JsError) :
  VectorAddArgsSchema args = ParseSuccess parsed ->
  openTable (add_table_name parsed) (world s) = (inr table, w1) ->
  table_add table (add_vectors parsed) w1 = (inl error, w2) ->
  vector_add args s =
    let tried := mkState w2 (trace s ++ [EvOpenTable (add_table_name parsed) (inr table);
                                         EvAdd table (add_vectors parsed) (inl error)]) in
    if includes "does not exist" (err_message error) then
      bind (db_createTable (add_table_name parsed) (add_vectors parsed))
        (fun _ => ret (text_result
           ("Created table " +:+ add_table_name parsed +:+ " and added "
            +:+ pretty (length (add_vectors parsed)) +:+ " vectors") false)) tried
    else (inl error, tried).
Proof.
  intros Hp Ho Ha. unfold vector_add. rewrite Hp.
  unfold try_catch, bind at 1, bind at 1, db_openTable, tbl_add, call.
  rewrite Ho. cbn [world trace]. rewrite Ha, <- app_assoc.
  by destruct (includes _ _).
Qed.

(** X1.  The tool list and the dispatch agree: a request for one of the
    three advertised names runs the case of that name, and a request for any
    other name is answered "Error: Unknown tool: <name>", flagged [isError],
    without a call to the store or to the embeddings endpoint. *)
Theorem advertised_tools_are_the_dispatched_ones
    (zodToJsonSchema : ArgsSchema -> json) (request : Request) (s : State W TH) :
  let names := map tool_name (ListToolsRequestHandler zodToJsonSchema) in
  (In (req_name request) names ->
   (req_name request = "vector_add" /\
    call_tool cfg request = vector_add (W:=W) (TH:=TH) (req_arguments request)) \/
   (req_name request = "vector_search" /\
    call_tool cfg request = vector_search (W:=W) (TH:=TH) cfg (req_arguments request)) \/
   (req_name request = "list_tables" /\
    call_tool cfg request = list_tables (W:=W) (TH:=TH))) /\
  (~ In (req_name request) names ->
   handler request s =
     (text_result ("Error: Unknown tool: " +:+ req_name request) true, s)).
Proof.
  cbv zeta. cbn [ListToolsRequestHandler map tool_name]. split.
  - intros [Hn|[Hn|[Hn|[]]]]; unfold call_tool; rewrite <- Hn; auto.
  - intros Hn. unfold CallToolRequestHandler, call_tool.
    destruct (String.eqb_spec (req_name request) "vector_add") as [E|_];
      [destruct Hn; left; done|].
    destruct (String.eqb_spec (req_name request) "vector_search") as [E|_];
      [destruct Hn; right; left; done|].
    destruct (String.eqb_spec (req_name request) "list_tables") as [E|_];
      [destruct Hn; right; right; left; done|].
    done.
Qed.

(** X2.  Validation of [vector_add] is all or nothing: when one item of
    [vectors] is not an object with a numeric [vector] array, the whole call
    is answered with the validation error and the store is not touched, so
    none of the other records is added. *)
Theorem one_bad_record_rejects_the_batch
    (o : Obj) (items : list json) (s : State W TH) :
  obj_get "vectors" o = Some (JArr items) ->
  Exists (fun item => ~ well_formed_record item) items ->
  exists error,
    VectorAddArgsSchema (Some (JObj o)) = ParseFailure error /\
    handler (mkRequest "vector_add" (Some (JObj o))) s =
      (text_result ("Error: Invalid arguments for vector_add: "
                    +:+ ZodError_toString error) true, s).
Proof.
  intros Hv Hbad.
  destruct (VectorAddArgsSchema (Some (JObj o))) as [parsed|error] eqn:Hp.
  - exfalso. unfold VectorAddArgsSchema in Hp.
    apply parse_map_inv in Hp as ([name records] & Hp & _).
    apply parse_both_inv in Hp as [_ Hr]. cbn [snd] in Hr.
    rewrite Hv in Hr. cbn [z_array] in Hr.
    apply z_record_items_inv in Hr as [Hall _].
    apply Exists_exists in Hbad as (item & Hin & Hnot).
    rewrite Forall_forall in Hall. by apply Hnot, Hall.
  - exists error. split; [done|].
    rewrite handler_vector_add. unfold vector_add. by rewrite Hp.
Qed.

(** X3.  [list_tables] does not look at its arguments: whatever they are,
    it asks the store once for the table names and, when the store returns
    them, answers with the JSON text of the names in the store's order. *)
Theorem list_tables_returns_the_names
    (args : option json) (s : State W TH) (names : list string) (w' : W) :
  tableNames (world s) = (inr names, w') ->
  handler (mkRequest "list_tables" args) s =
    (text_result (JSON_stringify_indent (JArr (map JStr names))) false,
     mkState w' (trace s ++ [EvTableNames (inr names)])).
Proof.
  intros Hn. rewrite handler_list_tables.
  unfold list_tables, try_catch, bind, db_tableNames, call, ret. by rewrite Hn.
Qed.

(** X4.  An empty [query_text] passes validation but is no query: with no
    [query_vector], the handler opens the table and then fails with "Either
    query_vector or query_text must be provided", wrapped as a search error;
    the embeddings endpoint is not asked and no search is issued. *)
Theorem empty_query_text_fails_after_the_open
    (args : option json) (parsed : VectorSearchArgs) (s : State W TH)
    (table : TH) (w1 : W) :
  VectorSearchArgsSchema args = ParseSuccess parsed ->
  query_vector parsed = None ->
  query_text parsed = Some "" ->
  openTable (table_name parsed) (world s) = (inr table, w1) ->
  handler (mkRequest "vector_search" args) s =
    (text_result ("Error: Error searching table " +:+ table_name parsed
                  +:+ ": Error: Either query_vector or query_text must be provided") true,
     mkState w1 (trace s ++ [EvOpenTable (table_name parsed) (inr table)])).
Proof.
  intros Hp Hqv Hqt Ho. rewrite (vector_search_valid args parsed s Hp).
  rewrite (vector_search_body_run parsed s _ w1 Ho). cbv zeta.
  rewrite Hqv, Hqt, resolve_without_query by auto. done.
Qed.

(** X5.  The [catch] around the open also catches [add]: when the table
    opens and [add] throws an error whose message contains "does not exist",
    the handler calls [createTable] with the same name and records and
    answers as that call decides; when the message does not contain it, the
    error of [add] is returned as a failure and nothing else is called. *)
Theorem add_error_is_handled_like_an_open_error
    (args : option json) (parsed : VectorAddArgs) (s : State W TH)
    (table : TH) (w1 w2 : W) (error : JsError) :
  VectorAddArgsSchema args = ParseSuccess parsed ->
  openTable (add_table_name parsed) (world s) = (inr table, w1) ->
  table_add table (add_vectors parsed) w1 = (inl error, w2) ->
  let table_name := add_table_name parsed in
  let vectors := add_vectors parsed in
  let tried := trace s ++ [EvOpenTable table_name (inr table);
                           EvAdd table vectors (inl error)] in
  if includes "does not exist" (err_message error) then
    forall created w3,
      createTable table_name vectors w2 = (created, w3) ->
      handler (mkRequest "vector_add" args) s =
        (match created with
         | inr _ =>
             text_result ("Created table " +:+ table_name +:+ " and added "
                          +:+ pretty (length vectors) +:+ " vectors") false
         | inl error' => text_result ("Error: " +:+ err_message error') true
         end,
         mkState w3 (tried ++ [EvCreateTable table_name vectors created]))
  else
    handler (mkRequest "vector_add" args) s =
      (text_result ("Error: " +:+ err_message error) true, mkState w2 tried).
Proof.
  intros Hp Ho Ha. cbv zeta.
  pose proof (vector_add_add_failed args parsed s table w1 w2 error Hp Ho Ha) as Hrun.
  cbv zeta in Hrun. rewrite handler_vector_add, Hrun.
  destruct (includes "does not exist" (err_message error)); [|done].
  intros created w3 Hc. erewrite createTable_run by (cbn [world]; exact Hc).
  cbn [world trace]. by destruct created.
Qed.

(** X6.  A search opens the table first and never creates it: when the open
    throws, whatever the message, the handler answers with that error wrapped
    as a search error and calls nothing else, so no embedding is requested
    and no table is created. *)
Theorem search_stops_when_the_table_does_not_open
    (args : option json) (parsed : VectorSearchArgs) (s : State W TH)
    (error : JsError) (w1 : W) :
  VectorSearchArgsSchema args = ParseSuccess parsed ->
  openTable (table_name parsed) (world s) = (inl error, w1) ->
  handler (mkRequest "vector_search" args) s =
    (text_result ("Error: Error searching table " +:+ table_name parsed
                  +:+ ": " +:+ Error_toString error) true,
     mkState w1 (trace s ++ [EvOpenTable (table_name parsed) (inl error)])).
Proof.
  intros Hp Ho. rewrite (vector_search_valid args parsed s Hp).
  by rewrite (vector_search_body_run parsed s _ w1 Ho).
Qed.

(** X7.  With several candidate columns, the first one in schema order that
    has type id 16 and a list size above 10 is the vector column: its name
    is the one removed from the results, and every other column, a later
    vector column included, is returned as the store gave it. *)
Theorem first_wide_column_is_the_vector_column
    (args : option json) (parsed : VectorSearchArgs) (s s2 : State W TH)
    (table : TH) (w1 w3 w4 : W) (sv : list number) (schema : Schema)
    (pre post : list Field) (f : Field) (rows : list Obj) :
  VectorSearchArgsSchema args = ParseSuccess parsed ->
  openTable (table_name parsed) (world s) = (inr table, w1) ->
  resolve_searchVector cfg (query_vector parsed) (query_text parsed)
    (mkState w1 (trace s ++ [EvOpenTable (table_name parsed) (inr table)])) = (inr sv, s2) ->
  table_schema table (world s2) = (inr schema, w3) ->
  fields schema = pre ++ f :: post ->
  Forall (fun g => is_vector_field g = false) pre ->
  is_vector_field f = true ->
  query_toArray table (build_query sv parsed) w3 = (inr rows, w4) ->
  let returned :=
    processResults (default false (with_vectors parsed)) (field_name f) rows in
  fst (handler (mkRequest "vector_search" args) s)
    = text_result (JSON_stringify_indent (JArr (map JObj returned))) false /\
  (default false (with_vectors parsed) = false ->
   Forall2 (stripped (field_name f)) rows returned).
Proof.
  intros Hp Ho Hr Hs Hfields Hpre Hf Hq. cbv zeta. split.
  - rewrite (vector_search_valid args parsed s Hp).
    rewrite (vector_search_body_run parsed s _ w1 Ho). cbv zeta. rewrite Hr.
    rewrite (search_resolved_run table sv parsed s2 _ w3 Hs).
    rewrite Hfields, (find_first_vector_field pre post f Hpre Hf). cbv zeta.
    by rewrite Hq.
  - intros ->. apply processResults_strips.
Qed.

(** X9.  When the embeddings endpoint answers a text query with a status
    that is not ok, the search fails with "Ollama API error: <status>
    <statusText>", wrapped as a search error; the body of the response is
    not read, the error is logged, and neither the schema nor a search is
    requested from the store. *)
Theorem failed_embedding_status_fails_the_search
    (args : option json) (parsed : VectorSearchArgs) (s : State W TH)
    (table : TH) (w1 w2 : W) (t : string) (response : Response) :
  VectorSearchArgsSchema args = ParseSuccess parsed ->
  query_vector parsed = None ->
  query_text parsed = Some t ->
  t <> "" ->
  openTable (table_name parsed) (world s) = (inr table, w1) ->
  fetch (ollamaEndpoint cfg) (embedding_request cfg t) w1 = (inr response, w2) ->
  ok response = false ->
  let api_error := "Ollama API error: " +:+ pretty (status response)
                   +:+ " " +:+ statusText response in
  handler (mkRequest "vector_search" args) s =
    (text_result ("Error: Error searching table " +:+ table_name parsed
                  +:+ ": Error: " +:+ api_error) true,
     mkState w2
       (trace s ++ [EvOpenTable (table_name parsed) (inr table);
                    EvLog ("Generating embedding for text: " +:+ quoted t);
                    EvFetch (ollamaEndpoint cfg) (embedding_request cfg t) (inr response);
                    EvLog ("Error generating embedding: " +:+ api_error)])).
Proof.
  intros Hp Hqv Hqt Ht Ho Hf Hok. cbv zeta.
  rewrite (vector_search_valid args parsed s Hp).
  rewrite (vector_search_body_run parsed s _ w1 Ho). cbv zeta.
  rewrite Hqv, Hqt.
  erewrite resolve_by_text by (try exact Ht; cbn [world]; exact Hf).
  cbv zeta. cbn [embedding_of]. unfold read_embedding. rewrite Hok. cbn [negb].
  cbn [world trace]. by rewrite <- app_assoc.
Qed.

(** X10.  A search and a listing only read: none of the calls made while
    [vector_search] or [list_tables] is handled is an [add] or a
    [createTable].  And [vector_add] only opens, adds and creates: it never
    asks for an embedding, a schema or a search. *)
Theorem only_vector_add_writes
    (args : option json) (s : State W TH) (ev : Event TH) :
  (In ev (new_events s (snd (handler (mkRequest "vector_search" args) s))) ->
   is_write_event ev = false) /\
  (In ev (new_events s (snd (handler (mkRequest "list_tables" args) s))) ->
   is_write_event ev = false) /\
  (In ev (new_events s (snd (handler (mkRequest "vector_add" args) s))) ->
   is_fetch_event ev = false /\ is_search_event ev = false).
Proof.
  split; [|split].
  - destruct (VectorSearchArgsSchema args) as [parsed|zerr] eqn:Hp.
    2:{ rewrite (vector_search_invalid args zerr s Hp). cbn [snd].
        rewrite new_events_refl. intros []. }
    rewrite (vector_search_valid args parsed s Hp).
    destruct (openTable (table_name parsed) (world s)) as [[e|table] w1] eqn:Ho;
      rewrite (vector_search_body_run parsed s _ w1 Ho); cbv zeta.
    { by_events. }
    set (s1 := mkState w1 _).
    destruct (resolve_cases (query_vector parsed) (query_text parsed) s1)
      as [(v & _ & Hr) | [(_ & _ & Hr) | (t & fetched & w' & _ & _ & _ & _ & Hr)]];
      rewrite Hr; clear Hr.
    + match goal with |- context [search_resolved ?tb ?sv ?pa ?st] =>
        destruct (table_schema tb (world st)) as [[e|schema] w3] eqn:Hs;
        rewrite (search_resolved_run tb sv pa st _ w3 Hs) end.
      { subst s1. by_events. }
      destruct (List.find is_vector_field (fields schema)) as [vf|].
      2:{ subst s1. by_events. }
      cbv zeta. destruct (query_toArray _ _ _) as [[e|rows] w4];
        unfold warning_events; destruct (dimension_differs _ _);
        subst s1; by_events.
    + subst s1. by_events.
    + cbv zeta. destruct fetched as [e|response]; cbn [embedding_of].
      { subst s1. by_events. }
      destruct (read_embedding response) as [e|v].
      { subst s1. by_events. }
      match goal with |- context [search_resolved ?tb ?sv ?pa ?st] =>
        destruct (table_schema tb (world st)) as [[e|schema] w3] eqn:Hs;
        rewrite (search_resolved_run tb sv pa st _ w3 Hs) end.
      { subst s1. by_events. }
      destruct (List.find is_vector_field (fields schema)) as [vf|].
      2:{ subst s1. by_events. }
      cbv zeta. destruct (query_toArray _ _ _) as [[e|rows] w4];
        unfold warning_events; destruct (dimension_differs _ _);
        subst s1; by_events.
  - rewrite handler_list_tables.
    unfold list_tables, try_catch, bind, db_tableNames, call, ret, throw.
    destruct (tableNames (world s)) as [[e|names] w']; cbn [respond]; by_events.
  - rewrite handler_vector_add. unfold vector_add.
    destruct (VectorAddArgsSchema args) as [parsed|zerr].
    2:{ unfold throw. cbn [respond snd]. rewrite new_events_refl. intros []. }
    unfold try_catch, bind, db_openTable, db_createTable, tbl_add, call, ret, throw.
    destruct (openTable _ _) as [[e|table] w1]; cbn [world trace].
    + destruct (includes "does not exist" (err_message e)).
      * destruct (createTable _ _ _) as [[e'|table] w2]; cbn [respond]; by_events.
      * cbn [respond]. by_events.
    + destruct (table_add _ _ _) as [[e|[]] w2]; cbn [world trace].
      * destruct (includes "does not exist" (err_message e)).
        -- destruct (createTable _ _ _) as [[e'|table'] w3]; cbn [respond]; by_events.
        -- cbn [respond]. by_events.
      * cbn [respond]. by_events.
Qed.

(** X11.  Every response, to any request, is one content item of type
    "text"; it is flagged [isError] exactly when the case of the request
    ends by throwing, so that the error reaches the [catch] around the
    [switch], and then its text starts with "Error: ".  An error that a
    case catches and recovers from, as [vector_add] does with a
    "does not exist" error, does not flag the response. *)
Theorem every_response_is_one_text_item (request : Request) (s : State W TH) :
  let result := fst (handler request s) in
  exists t,
    result = text_result t (isError result) /\
    (isError result = true ->
     starts_with "Error: " t = true /\
     exists error, fst (call_tool cfg request s) = inl error) /\
    (isError result = false ->
     fst (call_tool cfg request s) = inr result).
Proof.
  cbv zeta. unfold CallToolRequestHandler.
  destruct (call_tool cfg request s) as [[error|result] s'] eqn:Hrun; cbn [respond fst].
  - exists ("Error: " +:+ err_message error). split; [done|]. split; [|done].
    intros _. split; [apply prefix_app | eauto].
  - assert (exists t, result = text_result t false) as [t ->].
    { revert Hrun. unfold call_tool.
      destruct (String.eqb _ "vector_add"); [apply vector_add_returns_text|].
      destruct (String.eqb _ "vector_search"); [apply vector_search_returns_text|].
      destruct (String.eqb _ "list_tables"); [apply list_tables_returns_text|done]. }
    exists t. split; [done|]. split; [done|]. done.
Qed.

End HandlerFacts.

(** C5, as amended.  The validator asks for at least one of [query_vector]
    and [query_text]: it rejects the calls that supply neither, and it
    accepts whatever the object schema accepts with one of them or with
    both. *)
Theorem search_validator_wants_at_least_one (args : option json) :
  ((forall o, args = Some (JObj o) ->
      obj_get "query_vector" o = None /\ obj_get "query_text" o = None) ->
   parse_success (VectorSearchArgsSchema args) = false) /\
  (forall data,
     VectorSearchArgsSchema args = ParseSuccess data <->
     VectorSearchArgsObject args = ParseSuccess data /\
     (query_vector data <> None \/ query_text data <> None)).
Proof.
  split.
  - intros Hn. by destruct (VectorSearchArgsSchema_neither args Hn) as [error ->].
  - intros data. unfold VectorSearchArgsSchema, search_refinement. split.
    + destruct (VectorSearchArgsObject args) as [d|]; [|done].
      destruct (query_vector d) eqn:Hv, (query_text d) eqn:Ht; simpl;
        intros [= <-]; (split; [done|]); rewrite ?Hv, ?Ht; auto.
    + intros [-> [Hq|Hq]].
      * destruct (query_vector data); done.
      * destruct (query_vector data), (query_text data); done.
Qed.

(** ** Runs on the in-memory store *)

Import Mem Sample.

(** C5 fails as stated: a call that supplies both [query_vector] and
    [query_text] is accepted by the validator. *)
Lemma search_validator_accepts_both :
  VectorSearchArgsSchema (Some search_both_args) =
    ParseSuccess (mkVectorSearchArgs "docs" (Some [1 # 10; 2 # 10]%Q) (Some "hello")
                    None None None None).
Proof. reflexivity. Qed.

Lemma search_validator_wants_at_least_one_witness :
  parse_success (VectorSearchArgsSchema (req_arguments search_neither)) = false /\
  VectorSearchArgsSchema (Some search_both_args) =
    ParseSuccess (mkVectorSearchArgs "docs" (Some [1 # 10; 2 # 10]%Q) (Some "hello")
                    None None None None).
Proof.
  split.
  - apply (proj1 (search_validator_wants_at_least_one (req_arguments search_neither))).
    intros o [= <-]. split; reflexivity.
  - apply (proj2 (search_validator_wants_at_least_one (Some search_both_args)) _).
    split; [reflexivity|]. left. discriminate.
Defined.

Lemma search_without_query_is_rejected_witness :
  handle search_neither (init stocked_world) =
    (text_result ("Error: Invalid arguments for vector_search: "
                  +:+ "Either query_vector or query_text must be provided") true,
     init stocked_world).
Proof.
  destruct (search_without_query_is_rejected default_config
              (req_arguments search_neither) (init stocked_world)) as (error & Hp & Hrun & _).
  - intros o [= <-]. split; reflexivity.
  - vm_compute in Hp. injection Hp as <-. exact Hrun.
Defined.

Lemma missing_table_is_reported_not_created_witness :
  let out := handle add_docs (init empty_world) in
  tables empty_world !! "docs" = None /\
  openTable "docs" empty_world = (not_found "docs", empty_world) /\
  out = (text_result "Error: Table 'docs' was not found" true,
         mkState empty_world [EvOpenTable "docs" (not_found "docs")]) /\
  tables (world (snd out)) !! "docs" = None.
Proof.
  cbv zeta.
  pose proof (missing_table_is_reported_not_created default_config
                (req_arguments add_docs) (mkVectorAddArgs "docs" [docs_record])
                (init empty_world) (new_Error "Table 'docs' was not found") empty_world
                eq_refl eq_refl eq_refl) as Hrun.
  unfold handle, add_docs, add_request.
  cbn [req_arguments add_docs add_request] in Hrun. rewrite Hrun.
  repeat split; vm_compute; reflexivity.
Defined.

(** C8.  On the empty store the open of "docs" throws the library's
    "Table 'docs' was not found", which the handler does not take for a
    missing table: the call
    [add-vectors("docs", [{vector: [0.1, 0.2], title: "a"}])] is answered
    "Error: Table 'docs' was not found", flagged [isError]; the open is the
    only call made, and the store still holds no table "docs". *)
Theorem add_docs_on_empty_store_creates_nothing :
  let out := handle add_docs (init empty_world) in
  tables empty_world = ∅ /\
  fst out = text_result "Error: Table 'docs' was not found" true /\
  new_events (init empty_world) (snd out) = [EvOpenTable "docs" (not_found "docs")] /\
  tables (world (snd out)) !! "docs" = None /\
  includes "Added 1 vectors to table docs" (text_of (fst out)) = false.
Proof.
  cbv zeta. split; [reflexivity|].
  split; [vm_compute; reflexivity|].
  split; [vm_compute; reflexivity|].
  split; vm_compute; reflexivity.
Qed.

(** On the in-memory store, adding no rows to a table leaves the store as
    it is. *)
Lemma mem_add_nothing (name : string) (w : World) (t : Table) :
  tables w !! name = Some t ->
  fault w OpAdd = None ->
  mem_add name [] w = (inr tt, w).
Proof.
  intros Ht Hf. unfold mem_add, with_fault. rewrite Hf, Ht. f_equal.
  rewrite app_nil_r. destruct t as [schema rows]; cbn [t_schema t_rows].
  rewrite insert_id by exact Ht. by destruct w.
Qed.

Lemma mem_open_existing (name : string) (w : World) (t : Table) :
  tables w !! name = Some t ->
  fault w OpOpen = None ->
  mem_openTable name w = (inr name, w).
Proof. intros Ht Hf. unfold mem_openTable, with_fault. by rewrite Hf, Ht. Qed.

(** C10.  Arguments with a string [table_name] and an empty [vectors] array
    pass validation: nothing asks for a record.  On any store, when the
    table opens and the store's [add] of no rows returns, the response is
    "Added 0 vectors to table <name>", not flagged, after that open and that
    [add] and no other call.  On the in-memory store, whose [add] appends,
    a table that exists is left as it was, rows and schema, and so is the
    rest of the store. *)
Theorem empty_batch_leaves_the_table_as_it_is
    (printers : Printers) (cfg : Config) (o : Obj) (name : string) :
  obj_get "table_name" o = Some (JStr name) ->
  obj_get "vectors" o = Some (JArr []) ->
  let request := mkRequest "vector_add" (Some (JObj o)) in
  VectorAddArgsSchema (req_arguments request) = ParseSuccess (mkVectorAddArgs name []) /\
  (forall (W TH : Type) (store : Collaborators W TH) (s : State W TH) table w1 w2,
     openTable name (world s) = (inr table, w1) ->
     table_add table [] w1 = (inr tt, w2) ->
     CallToolRequestHandler cfg request s =
       (text_result ("Added 0 vectors to table " +:+ name) false,
        mkState w2 (trace s ++ [EvOpenTable name (inr table); EvAdd table [] (inr tt)]))) /\
  (forall (s : State World string) (t : Table),
     tables (world s) !! name = Some t ->
     fault (world s) OpOpen = None ->
     fault (world s) OpAdd = None ->
     CallToolRequestHandler (store := Mem.collaborators) cfg request s =
       (text_result ("Added 0 vectors to table " +:+ name) false,
        mkState (world s)
          (trace s ++ [EvOpenTable name (inr name); EvAdd name [] (inr tt)])) /\
     tables (world (snd (CallToolRequestHandler (store := Mem.collaborators) cfg request s)))
       !! name = Some t).
Proof.
  intros Hn Hv request. subst request. cbn [req_arguments].
  split; [exact (proj1 (vector_add_empty_batch (store := Mem.collaborators) cfg o name Hn Hv))|].
  split.
  - intros W TH store s table w1 w2 Ho Ha.
    exact (proj2 (vector_add_empty_batch cfg o name Hn Hv) s table w1 w2 Ho Ha).
  - intros s t Ht Hfo Hfa.
    assert (Hrun := proj2 (vector_add_empty_batch (store := Mem.collaborators) cfg o name Hn Hv)
                      s name (world s) (world s)
                      (mem_open_existing name (world s) t Ht Hfo)
                      (mem_add_nothing name (world s) t Ht Hfa)).
    rewrite Hrun. split; [reflexivity|exact Ht].
Qed.

Lemma empty_batch_leaves_the_table_as_it_is_witness :
  let out := handle add_nothing (init stocked_world) in
  VectorAddArgsSchema (req_arguments add_nothing) = ParseSuccess (mkVectorAddArgs "docs" []) /\
  fst out = text_result "Added 0 vectors to table docs" false /\
  world (snd out) = stocked_world /\
  t_rows <$> (tables (world (snd out)) !! "docs") = Some [docs_record].
Proof.
  destruct (empty_batch_leaves_the_table_as_it_is Mem.printers default_config
              [("table_name", JStr "docs"); ("vectors", JArr [])] "docs"
              eq_refl eq_refl) as (Hp & _ & Hmem).
  assert (Ht : tables (world (init stocked_world)) !! "docs"
               = Some (mkTable (infer_schema [docs_record]) [docs_record]))
    by (vm_compute; reflexivity).
  destruct (Hmem (init stocked_world) _ Ht eq_refl eq_refl) as [Hrun Hkept].
  cbv zeta. unfold handle, add_nothing, add_request. cbn [map].
  split; [exact Hp|]. rewrite Hrun. cbn [fst snd world].
  split; [reflexivity|]. split; [reflexivity|]. vm_compute. reflexivity.
Defined.

(** C6 fails as stated: table "docs" holds vectors of dimension 2 and the
    call gives a query vector of three components, yet the handler logs no
    warning and issues no search: after the open and the schema it answers
    "No vector column found in the table", flagged [isError]. *)
Lemma mismatch_on_a_narrow_table_is_a_failure :
  let out := handle (search_by_vector "docs" three_vector) (init stocked_world) in
  t_schema <$> (tables stocked_world !! "docs")
    = Some (mkSchema [mkField "vector" (mkDataType 16 (Some 2%Z));
                      mkField "title" (mkDataType 5 None)]) /\
  length three_vector = 3 /\
  fst out = text_result
              ("Error: Error searching table docs: "
               +:+ "Error: No vector column found in the table") true /\
  new_events (init stocked_world) (snd out)
    = [EvOpenTable "docs" (inr "docs"); EvSchema "docs" (inr (infer_schema [docs_record]))].
Proof.
  cbv zeta. split; [vm_compute; reflexivity|]. split; [reflexivity|].
  split; vm_compute; reflexivity.
Qed.

Lemma dimension_mismatch_only_warns_witness :
  let out := handle (search_by_vector "wide" [1 # 10; 2 # 10]%Q) (init stocked_world) in
  fst out = text_result (show_json (JArr [JObj [("title", JStr "w")]])) false /\
  new_events (init stocked_world) (snd out) =
    [EvOpenTable "wide" (inr "wide");
     EvSchema "wide" (inr (infer_schema [wide_record]));
     EvLog "Warning: Query vector dimension (2) doesn't match table vector dimension (12)";
     EvToArray "wide"
       (mkVectorQuery [1 # 10; 2 # 10]%Q (Some cosine) (Some 10%Q) None)
       (inr [wide_record])].
Proof.
  set (parsed := mkVectorSearchArgs "wide" (Some [1 # 10; 2 # 10]%Q) None None None None None).
  set (s2 := mkState stocked_world [EvOpenTable "wide" (inr "wide")] : State World string).
  assert (Ho : openTable "wide" (world (init stocked_world)) = (inr "wide", stocked_world))
    by (vm_compute; reflexivity).
  assert (Hs : table_schema "wide" (world s2) = (inr (infer_schema [wide_record]), stocked_world))
    by (vm_compute; reflexivity).
  assert (Hq : query_toArray "wide" (build_query [1 # 10; 2 # 10]%Q parsed) stocked_world
               = (inr [wide_record], stocked_world))
    by (vm_compute; reflexivity).
  destruct (dimension_mismatch_only_warns default_config
              (req_arguments (search_by_vector "wide" [1 # 10; 2 # 10]%Q)) parsed
              (init stocked_world) s2 "wide" stocked_world stocked_world stocked_world
              [1 # 10; 2 # 10]%Q (infer_schema [wide_record])
              (mkField "vector" (mkDataType 16 (Some 12%Z))) (inr [wide_record])
              eq_refl Ho eq_refl Hs eq_refl ltac:(discriminate) Hq) as [Hrun _].
  cbv zeta. unfold handle, search_by_vector, search_request.
  cbn [req_arguments search_by_vector search_request] in Hrun. rewrite Hrun.
  split; vm_compute; reflexivity.
Defined.

Lemma search_results_hide_vector_column_witness :
  let s := init stocked_world in
  let kept := handle (search_with_vectors true) s in
  let hidden := handle (search_by_vector "wide" wide_vector) s in
  (exists table query rows,
     In (EvToArray table query (inr rows)) (new_events s (snd kept)) /\
     fst kept = text_result (show_json (JArr (map JObj rows))) false) /\
  (exists table query vectorField rows returned,
     In (EvToArray table query (inr rows)) (new_events s (snd hidden)) /\
     fst hidden = text_result (show_json (JArr (map JObj returned))) false /\
     Forall2 (stripped (field_name vectorField)) rows returned) /\
  fst kept = text_result (show_json (JArr [JObj wide_record])) false /\
  fst hidden = text_result (show_json (JArr [JObj [("title", JStr "w")]])) false /\
  fst (handle (search_with_vectors false) s) = fst hidden.
Proof.
  cbv zeta. split; [|split].
  - destruct (search_results_hide_vector_column default_config
                (req_arguments (search_with_vectors true))
                (init stocked_world) _ _
                (surjective_pairing (handle (search_with_vectors true) (init stocked_world))))
      as (o & parsed & table & schema & vf & query & rows
          & Ho & Hp & _ & _ & Hq & Hres & _ & Hkeep & _).
    { vm_compute; reflexivity. }
    injection Ho as <-.
    exists table, query, rows. split; [exact Hq|].
    pose proof (Hkeep eq_refl) as Hsame. rewrite Hsame in Hres. exact Hres.
  - destruct (search_results_hide_vector_column default_config
                (req_arguments (search_by_vector "wide" wide_vector))
                (init stocked_world) _ _
                (surjective_pairing (handle (search_by_vector "wide" wide_vector)
                                       (init stocked_world))))
      as (o & parsed & table & schema & vf & query & rows
          & Ho & Hp & _ & _ & Hq & Hres & Hstrip & _).
    { vm_compute; reflexivity. }
    injection Ho as <-.
    exists table, query, vf, rows,
      (processResults (default false (with_vectors parsed)) (field_name vf) rows).
    split; [exact Hq|]. split; [exact Hres|]. apply Hstrip. by left.
  - repeat split; vm_compute; reflexivity.
Defined.

(** C4 fails as stated: a call that supplies [query_text] together with a
    [query_vector] succeeds without asking the embeddings endpoint; the
    search is made with the [query_vector]. *)
Lemma query_text_is_ignored_next_to_query_vector :
  let out := handle search_wide_both (init embedding_world) in
  let events := new_events (init embedding_world) (snd out) in
  VectorSearchArgsSchema (req_arguments search_wide_both) =
    ParseSuccess (mkVectorSearchArgs "wide" (Some other_vector) (Some "hello")
                    None None None None) /\
  isError (fst out) = false /\
  length (List.filter is_fetch_event events) = 0 /\
  exists query rows,
    In (EvToArray "wide" query (inr rows)) events /\ q_vector query = other_vector.
Proof.
  cbv zeta. do 3 (split; [vm_compute; reflexivity|]).
  exists (mkVectorQuery other_vector (Some cosine) (Some 10%Q) None), [wide_record].
  split; [|reflexivity]. vm_compute. right; right; left; reflexivity.
Qed.

Lemma query_text_is_embedded_once_witness :
  let s := init embedding_world in
  let events := new_events s (snd (handle (search_by_text "wide" "hello") s)) in
  length (List.filter is_fetch_event events) = 1 /\
  forall table' query found,
    In (EvToArray table' query found) events ->
    exists response data,
      In (EvFetch (ollamaEndpoint default_config)
            (embedding_request default_config "hello") (inr response)) events /\
      response_json response = inr data /\
      q_vector query = embedding data.
Proof.
  assert (Ho : openTable "wide" (world (init embedding_world)) = (inr "wide", embedding_world))
    by (vm_compute; reflexivity).
  exact (proj1 (query_text_is_embedded_once default_config
                  (req_arguments (search_by_text "wide" "hello"))
                  (mkVectorSearchArgs "wide" None (Some "hello") None None None None)
                  (init embedding_world) "wide" embedding_world eq_refl Ho)
           "hello" eq_refl eq_refl ltac:(discriminate)).
Defined.

(** C7.  An error thrown while [vector_add] opens table "docs", here the
    store's "ENOSPC: no space left on device", is answered
    "Error: ENOSPC: no space left on device": flagged [isError], but with
    neither the operation nor the table in the text.  The same error thrown
    to [vector_search] on the same store is answered with both, "Error:
    Error searching table docs: Error: ENOSPC: no space left on device". *)
Theorem vector_add_error_is_not_wrapped :
  let s := init (failing OpOpen disk_full stocked_world) in
  let added := handle add_docs s in
  let searched := handle (search_by_vector "docs" [1 # 10; 2 # 10]%Q) s in
  fst added = text_result "Error: ENOSPC: no space left on device" true /\
  new_events s (snd added) = [EvOpenTable "docs" (inl disk_full)] /\
  includes "docs" (text_of (fst added)) = false /\
  includes "add" (text_of (fst added)) = false /\
  includes "table" (text_of (fst added)) = false /\
  fst searched
    = text_result "Error: Error searching table docs: Error: ENOSPC: no space left on device"
        true /\
  new_events s (snd searched) = [EvOpenTable "docs" (inl disk_full)].
Proof.
  cbv zeta. split; [vm_compute; reflexivity|].
  split; [vm_compute; reflexivity|].
  split; [vm_compute; reflexivity|].
  split; [vm_compute; reflexivity|].
  split; [vm_compute; reflexivity|].
  split; vm_compute; reflexivity.
Qed.

Lemma search_and_listing_errors_are_wrapped_run :
  let s := init (failing OpOpen disk_full stocked_world) in
  fst (handle (search_by_vector "docs" [1 # 10; 2 # 10]%Q) s)
    = text_result "Error: Error searching table docs: Error: ENOSPC: no space left on device"
        true.
Proof.
  cbv zeta.
  destruct (search_and_listing_errors_are_wrapped default_config
              (req_arguments (search_by_vector "docs" [1 # 10; 2 # 10]%Q))
              (init (failing OpOpen disk_full stocked_world))
              (EvOpenTable "docs" (inl disk_full)) disk_full eq_refl) as (_ & Hsearch & _).
  destruct Hsearch as (parsed & Hp & Hres & _).
  { vm_compute. left; reflexivity. }
  vm_compute in Hp. injection Hp as <-. exact Hres.
Defined.

(** C9 fails as stated: against table "docs", whose only vector column has
    dimension 2, a call by [query_text] gets the error of the embeddings
    endpoint when the endpoint is down, not "No vector column found in the
    table": the query vector is resolved before the schema is looked at. *)
Lemma embedding_failure_comes_before_schema_check :
  let out := handle (search_by_text "docs" "hello") (init stocked_world) in
  (List.find is_vector_field <$> (fields <$> (t_schema <$> (tables stocked_world !! "docs"))))
    = Some None /\
  parse_success (VectorSearchArgsSchema (req_arguments (search_by_text "docs" "hello"))) = true /\
  fst out = text_result
              ("Error: Error searching table docs: "
               +:+ "FetchError: connect ECONNREFUSED 127.0.0.1:11434") true /\
  includes "No vector column found in the table" (text_of (fst out)) = false.
Proof. cbv zeta. repeat split; vm_compute; reflexivity. Qed.

Lemma narrow_vector_column_is_not_found_witness :
  let out := handle (search_by_vector "docs" [1 # 10; 2 # 10]%Q) (init stocked_world) in
  fst out = text_result
              ("Error: Error searching table docs: "
               +:+ "Error: No vector column found in the table") true /\
  new_events (init stocked_world) (snd out)
    = [EvOpenTable "docs" (inr "docs"); EvSchema "docs" (inr (infer_schema [docs_record]))].
Proof.
  set (parsed := mkVectorSearchArgs "docs" (Some [1 # 10; 2 # 10]%Q) None None None None None).
  set (s2 := mkState stocked_world [EvOpenTable "docs" (inr "docs")] : State World string).
  assert (Ho : openTable "docs" (world (init stocked_world)) = (inr "docs", stocked_world))
    by (vm_compute; reflexivity).
  assert (Hs : table_schema "docs" (world s2) = (inr (infer_schema [docs_record]), stocked_world))
    by (vm_compute; reflexivity).
  destruct (narrow_vector_column_is_not_found default_config
              (req_arguments (search_by_vector "docs" [1 # 10; 2 # 10]%Q)) parsed
              (init stocked_world) s2 "docs" stocked_world stocked_world
              [1 # 10; 2 # 10]%Q (infer_schema [docs_record])
              eq_refl Ho eq_refl Hs) as [Hrun _].
  { intros field Hin (Htype & n & Hsize & Hn).
    vm_compute in Hin. destruct Hin as [<-|[<-|[]]]; vm_compute in Hsize;
      [injection Hsize as <-; discriminate Hn | discriminate Hsize]. }
  cbv zeta. unfold handle, search_by_vector, search_request.
  cbn [req_arguments search_by_vector search_request] in Hrun. rewrite Hrun.
  split; vm_compute; reflexivity.
Defined.

(** ** The command line *)

(** The loop takes one argument or two at a time. *)
Lemma args_ind2 (P : list string -> Prop) :
  P [] ->
  (forall a, P [a]) ->
  (forall a b rest, P rest -> P (b :: rest) -> P (a :: b :: rest)) ->
  forall args, P args.
Proof.
  intros Hnil Hone Hstep args.
  assert (H : P args /\ forall a, P (a :: args)); [|by destruct H].
  induction args as [|b rest [IH1 IH2]]; [by split|].
  split; [apply IH2|]. intros a. apply Hstep; [exact IH1 | apply IH2].
Qed.

(** One turn of the loop on a flag that takes a value. *)
Ltac flag_cases a :=
  destruct (String.eqb a "--db-path") eqn:?;
  [|destruct (String.eqb a "--ollama-endpoint") eqn:?;
    [|destruct (String.eqb a "--ollama-model") eqn:?]].

Lemma parse_args_skip (a : string) (rest : list string) (o : Cli.Options) :
  Cli.is_value_flag a = false -> Cli.is_help_flag a = false ->
  Cli.parse_args (a :: rest) o = Cli.parse_args rest o.
Proof.
  unfold Cli.is_value_flag, Cli.is_help_flag. intros Hv Hh.
  apply orb_false_iff in Hv as [Hv Hm]. apply orb_false_iff in Hv as [Hd He].
  simpl. by rewrite Hd, He, Hm, Hh.
Qed.

Lemma parse_args_help (a : string) (rest : list string) (o : Cli.Options) :
  Cli.is_help_flag a = true ->
  Cli.parse_args (a :: rest) o = Cli.parse_args rest (Cli.set_showHelp o).
Proof.
  unfold Cli.is_help_flag. intros Hh. apply orb_true_iff in Hh as [Hh|Hh];
    apply String.eqb_eq in Hh; by subst a.
Qed.

Lemma parse_args_no_value_flag (a : string) (rest : list string) (o : Cli.Options) :
  Cli.is_value_flag a = false ->
  Cli.parse_args (a :: rest) o =
    Cli.parse_args rest (if Cli.is_help_flag a then Cli.set_showHelp o else o).
Proof.
  intros Hv. destruct (Cli.is_help_flag a) eqn:Hh.
  - by apply parse_args_help.
  - by apply parse_args_skip.
Qed.

Lemma showHelp_stays (args : list string) :
  forall o, Cli.showHelp o = true -> Cli.showHelp (Cli.parse_args args o) = true.
Proof.
  induction args as [|a|a b rest IH1 IH2] using args_ind2; intros o Ho; [done|..].
  - simpl. flag_cases a; try done. by destruct (_ || _).
  - change (Cli.parse_args (a :: b :: rest) o) with
      (if String.eqb a "--db-path" then Cli.parse_args rest (Cli.set_dbPath (Some b) o)
       else if String.eqb a "--ollama-endpoint"
            then Cli.parse_args rest (Cli.set_endpoint (Some b) o)
       else if String.eqb a "--ollama-model"
            then Cli.parse_args rest (Cli.set_model (Some b) o)
       else if String.eqb a "--help" || String.eqb a "-h"
            then Cli.parse_args (b :: rest) (Cli.set_showHelp o)
       else Cli.parse_args (b :: rest) o).
    flag_cases a; try (by apply IH1). destruct (_ || _); by apply IH2.
Qed.

Lemma parse_args_app (pre rest : list string) :
  Forall (fun a => Cli.is_value_flag a = false) pre ->
  forall o, Cli.parse_args (pre ++ rest) o = Cli.parse_args rest (Cli.parse_args pre o).
Proof.
  induction 1 as [|a pre Ha _ IH]; intros o; [done|].
  rewrite <- app_comm_cons, !parse_args_no_value_flag by done. apply IH.
Qed.

(** Where the database path comes from. *)
Lemma dbPath_origin (args : list string) :
  forall o p,
    Cli.dbPath (Cli.parse_args args o) = Some p ->
    Cli.dbPath o = Some p \/ exists pre post, args = pre ++ "--db-path" :: p :: post.
Proof.
  induction args as [|a|a b rest IH1 IH2] using args_ind2; intros o p Hp; [by left|..].
  - left. simpl in Hp. flag_cases a; try done. by destruct (_ || _).
  - change (Cli.parse_args (a :: b :: rest) o) with
      (if String.eqb a "--db-path" then Cli.parse_args rest (Cli.set_dbPath (Some b) o)
       else if String.eqb a "--ollama-endpoint"
            then Cli.parse_args rest (Cli.set_endpoint (Some b) o)
       else if String.eqb a "--ollama-model"
            then Cli.parse_args rest (Cli.set_model (Some b) o)
       else if String.eqb a "--help" || String.eqb a "-h"
            then Cli.parse_args (b :: rest) (Cli.set_showHelp o)
       else Cli.parse_args (b :: rest) o) in Hp.
    assert (Hrest : forall o', Cli.dbPath o' = Cli.dbPath o ->
              Cli.dbPath (Cli.parse_args rest o') = Some p ->
              Cli.dbPath o = Some p \/
              exists pre post, a :: b :: rest = pre ++ "--db-path" :: p :: post).
    { intros o' Ho' H. apply IH1 in H as [H|(pre & post & ->)].
      - left. by rewrite <- Ho'.
      - right. by exists (a :: b :: pre), post. }
    assert (Htail : forall o', Cli.dbPath o' = Cli.dbPath o ->
              Cli.dbPath (Cli.parse_args (b :: rest) o') = Some p ->
              Cli.dbPath o = Some p \/
              exists pre post, a :: b :: rest = pre ++ "--db-path" :: p :: post).
    { intros o' Ho' H. apply IH2 in H as [H|(pre & post & Heq)].
      - left. by rewrite <- Ho'.
      - right. exists (a :: pre), post. by rewrite Heq. }
    destruct (String.eqb a "--db-path") eqn:Hd.
    { apply String.eqb_eq in Hd. subst a.
      apply IH1 in Hp as [Hp|(pre & post & ->)].
      - injection Hp as ->. right. by exists [], rest.
      - right. by exists ("--db-path" :: b :: pre), post. }
    destruct (String.eqb a "--ollama-endpoint"); [eapply Hrest; [|exact Hp]; done|].
    destruct (String.eqb a "--ollama-model"); [eapply Hrest; [|exact Hp]; done|].
    destruct (_ || _); (eapply Htail; [|exact Hp]; done).
Qed.

(** X15.  Arguments that are none of the five flags are ignored: the loop
    leaves every option as it was, so a command line made of such arguments
    only ends with exit code 1 and the message for a missing database
    path. *)
Theorem unknown_arguments_are_ignored (args : list string) (o : Cli.Options) :
  Forall (fun a => Cli.is_value_flag a = false /\ Cli.is_help_flag a = false) args ->
  Cli.parse_args args o = o /\
  Cli.startup args = Cli.Exit 1 Cli.missing_lines.
Proof.
  intros Hargs.
  assert (H : forall o', Cli.parse_args args o' = o').
  { induction Hargs as [|a rest [Hv Hh] _ IH]; intros o'; [done|].
    by rewrite parse_args_skip. }
  split; [apply H|]. unfold Cli.startup. by rewrite H.
Qed.

(** X16.  A help flag that is not the value of another flag wins: when
    [--help] or [-h] comes before any flag that takes a value, the script
    prints the usage and exits with code 0, whatever follows, a database path
    included. *)
Theorem help_flag_wins (pre post : list string) (h : string) :
  Forall (fun a => Cli.is_value_flag a = false) pre ->
  Cli.is_help_flag h = true ->
  Cli.startup (pre ++ h :: post) = Cli.Exit 0 Cli.help_lines.
Proof.
  intros Hpre Hh. unfold Cli.startup.
  rewrite parse_args_app, parse_args_help by done.
  by rewrite showHelp_stays.
Qed.

(** X17.  The script goes on to start the server only with a database path:
    if it does not exit, no help was asked for, and the path is a non-empty
    string that stands in the arguments right after a [--db-path]. *)
Theorem server_starts_only_with_a_database_path (args : list string) (o : Cli.Options) :
  Cli.startup args = Cli.Continue o ->
  o = Cli.parse_args args Cli.initial /\
  Cli.showHelp o = false /\
  exists p pre post,
    Cli.dbPath o = Some p /\ p <> "" /\ args = pre ++ "--db-path" :: p :: post.
Proof.
  unfold Cli.startup, Cli.no_dbPath.
  destruct (Cli.showHelp (Cli.parse_args args Cli.initial)) eqn:Hh; [done|].
  destruct (Cli.dbPath (Cli.parse_args args Cli.initial)) as [p|] eqn:Hp; [|done].
  destruct (String.eqb_spec p "") as [->|Hne]; [done|].
  intros [= <-]. split; [done|]. split; [done|].
  destruct (dbPath_origin _ _ _ Hp) as [Hi|(pre & post & Hargs)]; [done|].
  by exists p, pre, post.
Qed.

Lemma parse_args_two (a b : string) (rest : list string) (o : Cli.Options) :
  Cli.parse_args (a :: b :: rest) o =
    if String.eqb a "--db-path" then Cli.parse_args rest (Cli.set_dbPath (Some b) o)
    else if String.eqb a "--ollama-endpoint"
         then Cli.parse_args rest (Cli.set_endpoint (Some b) o)
    else if String.eqb a "--ollama-model"
         then Cli.parse_args rest (Cli.set_model (Some b) o)
    else if String.eqb a "--help" || String.eqb a "-h"
         then Cli.parse_args (b :: rest) (Cli.set_showHelp o)
    else Cli.parse_args (b :: rest) o.
Proof. done. Qed.

Lemma not_in_two (x a b : string) (rest : list string) :
  ~ In x (a :: b :: rest) -> a <> x /\ ~ In x rest /\ ~ In x (b :: rest).
Proof. intros Hx. repeat split; intros H; apply Hx; simpl in *; tauto. Qed.

Lemma dbPath_absent (args : list string) :
  forall o, ~ In "--db-path" args -> Cli.dbPath (Cli.parse_args args o) = Cli.dbPath o.
Proof.
  induction args as [|a|a b rest IH1 IH2] using args_ind2; intros o Hn; [done|..].
  - simpl. destruct (String.eqb_spec a "--db-path") as [->|_]; [destruct Hn; by left|].
    destruct (String.eqb a "--ollama-endpoint"); [done|].
    destruct (String.eqb a "--ollama-model"); [done|]. by destruct (_ || _).
  - rewrite parse_args_two. apply not_in_two in Hn as (Ha & Hr & Hbr).
    destruct (String.eqb_spec a "--db-path"); [done|].
    destruct (String.eqb a "--ollama-endpoint"); [by rewrite IH1|].
    destruct (String.eqb a "--ollama-model"); [by rewrite IH1|].
    destruct (_ || _); by rewrite IH2.
Qed.

Lemma endpoint_absent (args : list string) :
  forall o, ~ In "--ollama-endpoint" args ->
            Cli.endpoint (Cli.parse_args args o) = Cli.endpoint o.
Proof.
  induction args as [|a|a b rest IH1 IH2] using args_ind2; intros o Hn; [done|..].
  - simpl. destruct (String.eqb a "--db-path"); [done|].
    destruct (String.eqb_spec a "--ollama-endpoint") as [->|_]; [destruct Hn; by left|].
    destruct (String.eqb a "--ollama-model"); [done|]. by destruct (_ || _).
  - rewrite parse_args_two. apply not_in_two in Hn as (Ha & Hr & Hbr).
    destruct (String.eqb a "--db-path"); [by rewrite IH1|].
    destruct (String.eqb_spec a "--ollama-endpoint"); [done|].
    destruct (String.eqb a "--ollama-model"); [by rewrite IH1|].
    destruct (_ || _); by rewrite IH2.
Qed.

Lemma model_absent (args : list string) :
  forall o, ~ In "--ollama-model" args -> Cli.model (Cli.parse_args args o) = Cli.model o.
Proof.
  induction args as [|a|a b rest IH1 IH2] using args_ind2; intros o Hn; [done|..].
  - simpl. destruct (String.eqb a "--db-path"); [done|].
    destruct (String.eqb a "--ollama-endpoint"); [done|].
    destruct (String.eqb_spec a "--ollama-model") as [->|_]; [destruct Hn; by left|].
    by destruct (_ || _).
  - rewrite parse_args_two. apply not_in_two in Hn as (Ha & Hr & Hbr).
    destruct (String.eqb a "--db-path"); [by rewrite IH1|].
    destruct (String.eqb a "--ollama-endpoint"); [by rewrite IH1|].
    destruct (String.eqb_spec a "--ollama-model"); [done|].
    destruct (_ || _); by rewrite IH2.
Qed.

Lemma showHelp_absent (args : list string) :
  forall o, ~ In "--help" args -> ~ In "-h" args ->
            Cli.showHelp (Cli.parse_args args o) = Cli.showHelp o.
Proof.
  induction args as [|a|a b rest IH1 IH2] using args_ind2; intros o Hn Hn'; [done|..].
  - simpl. destruct (String.eqb a "--db-path"); [done|].
    destruct (String.eqb a "--ollama-endpoint"); [done|].
    destruct (String.eqb a "--ollama-model"); [done|].
    destruct (String.eqb_spec a "--help") as [->|_]; [destruct Hn; by left|].
    destruct (String.eqb_spec a "-h") as [->|_]; [destruct Hn'; by left|done].
  - rewrite parse_args_two. apply not_in_two in Hn as (Ha & Hr & Hbr).
    apply not_in_two in Hn' as (Ha' & Hr' & Hbr').
    destruct (String.eqb a "--db-path"); [by rewrite IH1|].
    destruct (String.eqb a "--ollama-endpoint"); [by rewrite IH1|].
    destruct (String.eqb a "--ollama-model"); [by rewrite IH1|].
    destruct (String.eqb_spec a "--help"); [done|].
    destruct (String.eqb_spec a "-h"); [done|]. cbn [orb]. by rewrite IH2.
Qed.

(** X18.  An option whose flag does not occur in the arguments keeps its
    value: the embeddings endpoint and the model stay at their defaults, the
    database path stays unset, and no help is shown. *)
Theorem absent_flags_change_nothing (args : list string) (o : Cli.Options) :
  (~ In "--db-path" args -> Cli.dbPath (Cli.parse_args args o) = Cli.dbPath o) /\
  (~ In "--ollama-endpoint" args ->
   Cli.endpoint (Cli.parse_args args o) = Cli.endpoint o) /\
  (~ In "--ollama-model" args -> Cli.model (Cli.parse_args args o) = Cli.model o) /\
  (~ In "--help" args -> ~ In "-h" args ->
   Cli.showHelp (Cli.parse_args args o) = Cli.showHelp o).
Proof.
  split; [apply dbPath_absent|].
  split; [apply endpoint_absent|].
  split; [apply model_absent | apply showHelp_absent].
Qed.

(** ** More on the validators *)

(** X12.  [vector_add] arguments pass validation exactly when they are an
    object whose [table_name] is a string and whose [vectors] is an array of
    objects, each with a [vector] that is an array of numbers; the parsed
    records are as many as the submitted objects, in the same order, and each
    has every field of its object with the same value, the fields beside
    [vector] included. *)
Theorem vector_add_validation_is_exact (args : option json) :
  (forall parsed,
     VectorAddArgsSchema args = ParseSuccess parsed ->
     exists o items,
       args = Some (JObj o) /\
       obj_get "table_name" o = Some (JStr (add_table_name parsed)) /\
       obj_get "vectors" o = Some (JArr items) /\
       Forall well_formed_record items /\
       Forall2 kept_record items (add_vectors parsed)) /\
  (forall o name items,
     args = Some (JObj o) ->
     obj_get "table_name" o = Some (JStr name) ->
     obj_get "vectors" o = Some (JArr items) ->
     Forall well_formed_record items ->
     parse_success (VectorAddArgsSchema args) = true).
Proof.
  split.
  - intros parsed H. destruct args as [[| | | | |o]|]; try done.
    unfold VectorAddArgsSchema in H.
    apply parse_map_inv in H as ([name records] & H & ->).
    apply parse_both_inv in H as [Hn Hv]. cbn [fst snd] in *.
    destruct (obj_get "table_name" o) as [[| | |n| |]|] eqn:En; try done.
    injection Hn as ->.
    unfold z_array in Hv.
    destruct (obj_get "vectors" o) as [[| | | |items|]|] eqn:Ev; try done.
    apply z_record_items_inv in Hv as [Hw Hk].
    by exists o, items.
  - intros o name items -> Hn Hv Hw. unfold VectorAddArgsSchema, z_array.
    rewrite Hn, Hv. cbn [z_string].
    pose proof (z_record_items_complete [PKey "vectors"] items Hw 0) as H.
    by destruct (z_array_items _ _ _ _).
Qed.

(** X13.  [null] is not [undefined]: a [vector_search] call that gives
    [null] for any optional field fails validation, also when the rest of the
    call is well formed. *)
Theorem null_is_not_optional (o : Obj) (k : string) :
  In k optional_search_keys ->
  obj_get k o = Some JNull ->
  parse_success (VectorSearchArgsSchema (Some (JObj o))) = false.
Proof.
  intros Hk Hnull.
  destruct (VectorSearchArgsSchema (Some (JObj o))) as [parsed|] eqn:Hp; [|done].
  apply VectorSearchArgsSchema_fields, VectorSearchArgsObject_fields in Hp
    as (_ & Hqv & Hqt & Hlim & Hdt & Hwh & Hwv).
  unfold optional_search_keys in Hk. cbn [In] in Hk.
  destruct Hk as [<-|[<-|[<-|[<-|[<-|[<-|[]]]]]]]; rewrite Hnull in *; done.
Qed.

(** X14.  A [distance_type] that passes validation is exactly one of the
    three strings "l2", "cosine" and "dot" (case matters), and it is parsed
    to the metric of that name. *)
Theorem distance_type_is_one_of_three (o : Obj) (parsed : VectorSearchArgs) (v : json) :
  VectorSearchArgsSchema (Some (JObj o)) = ParseSuccess parsed ->
  obj_get "distance_type" o = Some v ->
  exists d, distance_type parsed = Some d /\ v = JStr (distance_name d).
Proof.
  intros Hp Hv.
  apply VectorSearchArgsSchema_fields, VectorSearchArgsObject_fields in Hp
    as (_ & _ & _ & _ & Hdt & _).
  rewrite Hv in Hdt. cbn [z_optional] in Hdt.
  apply parse_map_inv in Hdt as (d & Hd & ->). exists d. split; [done|].
  unfold z_distance_type in Hd. destruct v as [| | |s| |]; try done.
  destruct (String.eqb_spec s "l2") as [->|_]; [by injection Hd as <-|].
  destruct (String.eqb_spec s "cosine") as [->|_]; [by injection Hd as <-|].
  destruct (String.eqb_spec s "dot") as [->|_]; [by injection Hd as <-|done].
Qed.

Lemma build_query_fields (sv : list number) (parsed : VectorSearchArgs) :
  let q := build_query sv parsed in
  q_vector q = sv /\
  q_limit q = Some (default 10%Q (limit parsed)) /\
  q_distanceType q = Some (default cosine (distance_type parsed)) /\
  q_where q = match where_ parsed with
              | Some w => if String.eqb w "" then None else Some w
              | None => None
              end.
Proof.
  unfold build_query. destruct (where_ parsed) as [w|]; [|done].
  by destruct (String.eqb w "").
Qed.

(** X8.  The query sent to the store has the defaults of the tool: without
    [limit] the limit is 10 and without [distance_type] the metric is
    cosine; a [limit] and a non-empty [where] are passed on as given; a
    [where] that is absent or the empty string gives a query with no
    filter. *)
Theorem issued_query_has_the_defaults
    (o : Obj) (parsed : VectorSearchArgs) (sv : list number) :
  VectorSearchArgsSchema (Some (JObj o)) = ParseSuccess parsed ->
  let q := build_query sv parsed in
  q_vector q = sv /\
  (obj_get "limit" o = None -> q_limit q = Some 10%Q) /\
  (forall n, obj_get "limit" o = Some (JNum n) -> q_limit q = Some n) /\
  (obj_get "distance_type" o = None -> q_distanceType q = Some cosine) /\
  (obj_get "where" o = None \/ obj_get "where" o = Some (JStr "") -> q_where q = None) /\
  (forall w, w <> "" -> obj_get "where" o = Some (JStr w) -> q_where q = Some w).
Proof.
  intros Hp. cbv zeta.
  apply VectorSearchArgsSchema_fields, VectorSearchArgsObject_fields in Hp
    as (_ & _ & _ & Hlim & Hdt & Hwh & _).
  destruct (build_query_fields sv parsed) as (Hv & Hl & Hd & Hw).
  rewrite Hl, Hd, Hw. split; [done|]. repeat split.
  - intros Hn. rewrite Hn in Hlim. by injection Hlim as <-.
  - intros n Hn. rewrite Hn in Hlim. by injection Hlim as <-.
  - intros Hn. rewrite Hn in Hdt. by injection Hdt as <-.
  - intros [Hn|Hn]; rewrite Hn in Hwh; by injection Hwh as <-.
  - intros w Hne Hn. rewrite Hn in Hwh. injection Hwh as <-.
    by destruct (String.eqb_spec w "").
Qed.

(** ** More runs on the in-memory store *)

Lemma advertised_tools_are_the_dispatched_ones_witness :
  handle (mkRequest "drop_table" None) (init stocked_world) =
    (text_result "Error: Unknown tool: drop_table" true, init stocked_world).
Proof.
  apply (proj2 (advertised_tools_are_the_dispatched_ones default_config no_schema
                  (mkRequest "drop_table" None) (init stocked_world))).
  cbn. intros [H|[H|[H|[]]]]; discriminate H.
Defined.

Lemma one_bad_record_rejects_the_batch_witness :
  exists error,
    VectorAddArgsSchema (Some (JObj add_bad_batch_args)) = ParseFailure error /\
    handle (mkRequest "vector_add" (Some (JObj add_bad_batch_args))) (init stocked_world) =
      (text_result ("Error: Invalid arguments for vector_add: "
                    +:+ ZodError_toString error) true, init stocked_world).
Proof.
  apply (one_bad_record_rejects_the_batch default_config add_bad_batch_args
           [JObj docs_record; JObj [("title", JStr "b")]] (init stocked_world) eq_refl).
  apply Exists_cons_tl, Exists_cons_hd.
  intros (ob & nums & [= <-] & Hv). discriminate Hv.
Defined.

Lemma list_tables_returns_the_names_witness :
  handle (mkRequest "list_tables" (Some (JStr "ignored"))) (init stocked_world) =
    (text_result (show_json (JArr (map JStr (map fst (map_to_list two_tables))))) false,
     mkState stocked_world [EvTableNames (inr (map fst (map_to_list two_tables)))]).
Proof.
  exact (list_tables_returns_the_names default_config (Some (JStr "ignored"))
           (init stocked_world) _ stocked_world eq_refl).
Defined.

Lemma empty_query_text_fails_after_the_open_witness :
  handle (search_by_text "docs" "") (init stocked_world) =
    (text_result ("Error: Error searching table docs: "
                  +:+ "Error: Either query_vector or query_text must be provided") true,
     mkState stocked_world [EvOpenTable "docs" (inr "docs")]).
Proof.
  assert (Ho : openTable "docs" (world (init stocked_world)) = (inr "docs", stocked_world))
    by (vm_compute; reflexivity).
  exact (empty_query_text_fails_after_the_open default_config
           (req_arguments (search_by_text "docs" ""))
           (mkVectorSearchArgs "docs" None (Some "") None None None None)
           (init stocked_world) "docs" stocked_world eq_refl eq_refl eq_refl Ho).
Defined.

Lemma add_error_is_handled_like_an_open_error_witness :
  let w := failing OpAdd no_such_column stocked_world in
  fst (handle add_docs (init w)) = text_result "Error: Table 'docs' already exists" true /\
  new_events (init w) (snd (handle add_docs (init w))) =
    [EvOpenTable "docs" (inr "docs");
     EvAdd "docs" [docs_record] (inl no_such_column);
     EvCreateTable "docs" [docs_record] (inl (new_Error "Table 'docs' already exists"))].
Proof.
  cbv zeta. set (w := failing OpAdd no_such_column stocked_world).
  assert (Ho : openTable "docs" (world (init w)) = (inr "docs", w))
    by (vm_compute; reflexivity).
  assert (Ha : table_add "docs" [docs_record] w = (inl no_such_column, w))
    by (vm_compute; reflexivity).
  assert (Hc : createTable "docs" [docs_record] w
               = (inl (new_Error "Table 'docs' already exists"), w))
    by (vm_compute; reflexivity).
  pose proof (add_error_is_handled_like_an_open_error default_config
                (req_arguments add_docs) (mkVectorAddArgs "docs" [docs_record])
                (init w) "docs" w w no_such_column eq_refl Ho Ha
                (inl (new_Error "Table 'docs' already exists")) w Hc) as Hrun.
  unfold handle, add_docs, add_request. cbn [req_arguments add_docs add_request] in Hrun.
  rewrite Hrun. split; [reflexivity|]. vm_compute. reflexivity.
Defined.

Lemma search_stops_when_the_table_does_not_open_witness :
  handle (search_by_text "missing" "hello") (init embedding_world) =
    (text_result ("Error: Error searching table missing: "
                  +:+ "Error: Table 'missing' was not found") true,
     mkState embedding_world [EvOpenTable "missing" (not_found "missing")]).
Proof.
  assert (Ho : openTable "missing" (world (init embedding_world))
               = (not_found "missing", embedding_world))
    by (vm_compute; reflexivity).
  exact (search_stops_when_the_table_does_not_open default_config
           (req_arguments (search_by_text "missing" "hello"))
           (mkVectorSearchArgs "missing" None (Some "hello") None None None None)
           (init embedding_world) (new_Error "Table 'missing' was not found")
           embedding_world eq_refl Ho).
Defined.

Lemma first_wide_column_is_the_vector_column_witness :
  fst (handle (search_by_vector "multi" wide_vector) (init multi_world)) =
    text_result
      (show_json (JArr [JObj [("tags", JArr [JNum 1%Q; JNum 2%Q; JNum 3%Q]);
                              ("thumbnail", JArr (map JNum other_vector));
                              ("title", JStr "m")]])) false.
Proof.
  set (parsed := mkVectorSearchArgs "multi" (Some wide_vector) None None None None None).
  set (s2 := mkState multi_world [EvOpenTable "multi" (inr "multi")] : State World string).
  assert (Ho : openTable "multi" (world (init multi_world)) = (inr "multi", multi_world))
    by (vm_compute; reflexivity).
  assert (Hs : table_schema "multi" (world s2)
               = (inr (infer_schema [multi_record]), multi_world))
    by (vm_compute; reflexivity).
  assert (Hq : query_toArray "multi" (build_query wide_vector parsed) multi_world
               = (inr [multi_record], multi_world))
    by (vm_compute; reflexivity).
  destruct (first_wide_column_is_the_vector_column default_config
              (req_arguments (search_by_vector "multi" wide_vector)) parsed
              (init multi_world) s2 "multi" multi_world multi_world multi_world
              wide_vector (infer_schema [multi_record])
              [mkField "tags" (mkDataType 16 (Some 3%Z))]
              [mkField "thumbnail" (mkDataType 16 (Some 12%Z));
               mkField "title" (mkDataType 5 None)]
              (mkField "vector" (mkDataType 16 (Some 12%Z))) [multi_record]
              eq_refl Ho eq_refl Hs eq_refl) as [Hrun _];
    [by repeat constructor|reflexivity|exact Hq|].
  unfold handle, search_by_vector, search_request.
  cbn [req_arguments search_by_vector search_request] in Hrun. rewrite Hrun.
  vm_compute. reflexivity.
Defined.

Lemma issued_query_has_the_defaults_witness :
  let q := build_query wide_vector
             (mkVectorSearchArgs "wide" (Some wide_vector) None None None None None) in
  q_limit q = Some 10%Q /\ q_distanceType q = Some cosine /\ q_where q = None.
Proof.
  destruct (issued_query_has_the_defaults
              [("table_name", JStr "wide"); ("query_vector", JArr (map JNum wide_vector))]
              (mkVectorSearchArgs "wide" (Some wide_vector) None None None None None)
              wide_vector eq_refl) as (_ & Hl & _ & Hd & Hw & _).
  split; [apply Hl; reflexivity|]. split; [apply Hd; reflexivity|].
  apply Hw. left. reflexivity.
Defined.

Lemma failed_embedding_status_fails_the_search_witness :
  fst (handle (search_by_text "wide" "hello") (init unavailable_world)) =
    text_result ("Error: Error searching table wide: "
                 +:+ "Error: Ollama API error: 503 Service Unavailable") true.
Proof.
  assert (Ho : openTable "wide" (world (init unavailable_world))
               = (inr "wide", unavailable_world))
    by (vm_compute; reflexivity).
  pose proof (failed_embedding_status_fails_the_search default_config
                (req_arguments (search_by_text "wide" "hello"))
                (mkVectorSearchArgs "wide" None (Some "hello") None None None None)
                (init unavailable_world) "wide" unavailable_world unavailable_world
                "hello" (mkResponse false 503 "Service Unavailable"
                           (inr (mkEmbeddingData wide_vector)))
                eq_refl eq_refl eq_refl ltac:(discriminate) Ho eq_refl eq_refl) as Hrun.
  cbv zeta in Hrun. unfold handle, search_by_text, search_request.
  cbn [req_arguments search_by_text search_request] in Hrun. rewrite Hrun.
  vm_compute. reflexivity.
Defined.

Lemma only_vector_add_writes_witness :
  is_write_event
    (EvToArray "wide" (mkVectorQuery wide_vector (Some cosine) (Some 10%Q) None)
       (inr [wide_record]) : Event string) = false.
Proof.
  apply (proj1 (only_vector_add_writes default_config
                  (req_arguments (search_by_vector "wide" wide_vector))
                  (init stocked_world) _)).
  vm_compute. right; right; left; reflexivity.
Defined.

Lemma every_response_is_one_text_item_witness :
  (exists t,
     fst (handle search_neither (init stocked_world)) = text_result t true /\
     starts_with "Error: " t = true) /\
  (let s := init (failing OpOpen no_such_column empty_world) in
   trace (snd (handle add_docs s))
     = [EvOpenTable "docs" (inl no_such_column);
        EvCreateTable "docs" [docs_record] (inr "docs")] /\
   isError (fst (handle add_docs s)) = false /\
   fst (call_tool default_config add_docs s) = inr (fst (handle add_docs s))).
Proof.
  split.
  - destruct (every_response_is_one_text_item default_config search_neither
                (init stocked_world)) as (t & Hres & Herr & _).
    assert (Hflag : isError (fst (handle search_neither (init stocked_world))) = true)
      by (vm_compute; reflexivity).
    exists t. unfold handle in *. rewrite Hflag in Hres. split; [exact Hres|].
    exact (proj1 (Herr Hflag)).
  - cbv zeta. split; [vm_compute; reflexivity|].
    assert (Hflag : isError (fst (handle add_docs
                                    (init (failing OpOpen no_such_column empty_world))))
                    = false)
      by (vm_compute; reflexivity).
    split; [exact Hflag|].
    destruct (every_response_is_one_text_item default_config add_docs
                (init (failing OpOpen no_such_column empty_world))) as (t & _ & _ & Hok).
    exact (Hok Hflag).
Defined.

Lemma vector_add_validation_is_exact_witness :
  parse_success (VectorAddArgsSchema (req_arguments add_docs)) = true.
Proof.
  apply (proj2 (vector_add_validation_is_exact (req_arguments add_docs))
           _ "docs" [JObj docs_record] eq_refl eq_refl eq_refl).
  constructor; [|constructor]. by exists docs_record, [1 # 10; 2 # 10]%Q.
Defined.

Lemma null_is_not_optional_witness :
  parse_success
    (VectorSearchArgsSchema
       (Some (JObj [("table_name", JStr "docs");
                    ("query_text", JStr "hello");
                    ("limit", JNull)]))) = false.
Proof.
  apply (null_is_not_optional _ "limit"); [|reflexivity].
  right; right; left; reflexivity.
Defined.

Lemma distance_type_is_one_of_three_witness :
  exists d, Some dot = Some d /\ JStr "dot" = JStr (distance_name d).
Proof.
  exact (distance_type_is_one_of_three search_with_options
           (mkVectorSearchArgs "wide" (Some wide_vector) None (Some 3%Q) (Some dot)
              (Some "title = 'w'") None) (JStr "dot") eq_refl eq_refl).
Defined.

Lemma unknown_arguments_are_ignored_witness :
  Cli.startup ["--verbose"; "/data/lancedb"] = Cli.Exit 1 Cli.missing_lines.
Proof.
  apply (unknown_arguments_are_ignored ["--verbose"; "/data/lancedb"] Cli.initial).
  by repeat constructor.
Defined.

Lemma help_flag_wins_witness :
  Cli.startup ["extra"; "-h"; "--db-path"; "/data/lancedb"] = Cli.Exit 0 Cli.help_lines.
Proof.
  apply (help_flag_wins ["extra"] ["--db-path"; "/data/lancedb"] "-h"); [|reflexivity].
  by repeat constructor.
Defined.

Lemma server_starts_only_with_a_database_path_witness :
  exists p pre post,
    Cli.dbPath (Cli.parse_args ["--ollama-model"; "m"; "--db-path"; "/data/lancedb"]
                  Cli.initial) = Some p /\
    p <> "" /\
    ["--ollama-model"; "m"; "--db-path"; "/data/lancedb"] = pre ++ "--db-path" :: p :: post.
Proof.
  exact (proj2 (proj2 (server_starts_only_with_a_database_path
                         ["--ollama-model"; "m"; "--db-path"; "/data/lancedb"] _ eq_refl))).
Defined.

Lemma absent_flags_change_nothing_witness :
  Cli.endpoint (Cli.parse_args ["--db-path"; "/data/lancedb"; "-h"] Cli.initial)
    = Some "http://localhost:11434/api/embeddings".
Proof.
  apply (proj1 (proj2 (absent_flags_change_nothing
                         ["--db-path"; "/data/lancedb"; "-h"] Cli.initial))).
  cbn. intros [H|[H|[H|[]]]]; discriminate H.
Defined.
